(** * svgeditor: dimension resolution and the render session of [unix.py]

    A shallow embedding of [src/unix.py] (classes [XmlGraphic] and
    [SvgImageSurface]) and of the facade [src/surface.py].

    - The text of a document is modelled as [string]; a character is a
      code point below 256, so the development speaks about documents in
      the Latin-1 range.  A [bytes] value is a [string] as well.  A path
      ([from_file], [to_file]) is a [str] of any code points, [UStr.t].
    - Python's [re.search] is embedded as a backtracking matcher with greedy
      repetition and capture groups, over exactly the constructs the four
      patterns of [_get_svg_dimensions] use.
    - The two native libraries (cairo, librsvg), the file system and the
      [bs4] parser are parameters: every statement holds for all of their
      behaviours.  Each native call is recorded in a call log, from which
      the acquired and released resources are read. *)

From Stdlib Require Import List String Ascii ZArith QArith Bool Lia.
Import ListNotations.
Local Open Scope string_scope.
Local Open Scope list_scope.
Local Open Scope Z_scope.

(** ** Python strings *)

(** A [str] as its code points.  Paths are of this type: they may hold
    any character, a lone surrogate included. *)
Module UStr.

Definition t : Type := list N.

(** A literal of the Latin-1 range as a [str]. *)
Definition of_string (s : string) : t :=
  map N_of_ascii (list_ascii_of_string s).

Fixpoint eqb (a b : t) : bool :=
  match a, b with
  | [], [] => true
  | x :: a', y :: b' => (N.eqb x y && eqb a' b')%bool
  | _, _ => false
  end.

Definition byte (n : N) : ascii := ascii_of_N n.

(** The UTF-8 bytes of one code point; [None] for a surrogate (and for
    a number that is no code point), which the strict encoder refuses. *)
Definition utf8 (c : N) : option (list ascii) :=
  (if c <? 128 then Some [byte c]
   else if c <? 2048 then Some [byte (192 + c / 64); byte (128 + c mod 64)]
   else if c <? 65536 then
     if (55296 <=? c) && (c <=? 57343) then None
     else Some [byte (224 + c / 4096); byte (128 + (c / 64) mod 64);
                byte (128 + c mod 64)]
   else if c <? 1114112 then
     Some [byte (240 + c / 262144); byte (128 + (c / 4096) mod 64);
           byte (128 + (c / 64) mod 64); byte (128 + c mod 64)]
   else None)%N.

(** [s.encode('utf-8')]; [None] is [UnicodeEncodeError]. *)
Fixpoint encode (s : t) : option string :=
  match s with
  | [] => Some EmptyString
  | c :: s' =>
      match utf8 c, encode s' with
      | Some bs, Some rest => Some (string_of_list_ascii bs ++ rest)%string
      | _, _ => None
      end
  end.

End UStr.

Coercion UStr.of_string : string >-> UStr.t.

Module PyStr.

(** [s.endswith(suf)] *)
Definition endswith (s suf : UStr.t) : bool :=
  let n := List.length s in
  let m := List.length suf in
  if Nat.leb m n then UStr.eqb (skipn (n - m) s) suf else false.

(** Truthiness of a [str]: the empty string is falsy. *)
Definition truthy (s : UStr.t) : bool :=
  match s with [] => false | _ :: _ => true end.

(** [s.startswith(p)] *)
Fixpoint startswith (s p : string) {struct p} : bool :=
  match p with
  | EmptyString => true
  | String c p' =>
      match s with
      | String a s' => if Ascii.eqb a c then startswith s' p' else false
      | EmptyString => false
      end
  end.

(** [p in s] *)
Fixpoint occurs (p s : string) : bool :=
  if startswith s p then true
  else match s with
       | EmptyString => false
       | String _ s' => occurs p s'
       end.

(** [all(f(c) for c in s)] *)
Fixpoint all (f : ascii -> bool) (s : string) : bool :=
  match s with
  | EmptyString => true
  | String a s' => f a && all f s'
  end.

(** [s[:k]]: a negative [k] counts from the end, and the bounds are
    clipped to the string. *)
Definition slice_to (s : string) (k : Z) : string :=
  let n := Z.of_nat (String.length s) in
  let stop := if k <? 0 then Z.max 0 (n + k) else Z.min k n in
  substring 0 (Z.to_nat stop) s.

End PyStr.

(** ** The regular expressions of [_get_svg_dimensions] *)

Module Re.

(** Character classes, as predicates on code points. *)
Definition is_digit (a : ascii) : bool :=
  let n := nat_of_ascii a in (Nat.leb 48 n && Nat.leb n 57)%bool.

(** [\s] on a [str] pattern: the Unicode white space below 256. *)
Definition is_space (a : ascii) : bool :=
  let n := nat_of_ascii a in
  ((Nat.leb 9 n && Nat.leb n 13) || (Nat.leb 28 n && Nat.leb n 32)
   || Nat.eqb n 133 || Nat.eqb n 160)%bool.

(** [[\d.]] *)
Definition digit_or_dot (a : ascii) : bool :=
  (is_digit a || Ascii.eqb a ".")%bool.

(** [[^>]] *)
Definition not_gt (a : ascii) : bool := negb (Ascii.eqb a ">").

(** The double quote character, code point 34. *)
Definition dquote : ascii := Ascii false true false false false true false false.

(** The class of every character but the double quote. *)
Definition not_quote (a : ascii) : bool := negb (Ascii.eqb a dquote).

(** A pattern is a sequence of atoms.  Repetition applies to character
    classes only, which is all the source patterns need. *)
Inductive atom : Type :=
| Chr (c : ascii)              (* a literal character *)
| Cls (p : ascii -> bool)      (* one character of a class *)
| Star (p : ascii -> bool)     (* a class, zero or more times, greedy *)
| Plus (p : ascii -> bool)     (* a class, one or more times, greedy *)
| GOpen                        (* a group opens *)
| GClose.                      (* a group closes *)

Definition pattern := list atom.

(** Literal text as a sequence of [Chr]. *)
Fixpoint lit (s : string) : pattern :=
  match s with
  | EmptyString => []
  | String a s' => Chr a :: lit s'
  end.

(** The groups closed so far (latest first) and, while a group is open,
    the characters it has taken (latest first). *)
Record caps : Type := mkCaps {
  closed : list string;
  opened : option (list ascii)
}.

Definition no_caps : caps := mkCaps [] None.

Definition take (a : ascii) (st : caps) : caps :=
  match opened st with
  | Some acc => mkCaps (closed st) (Some (a :: acc))
  | None => st
  end.

Definition open_group (st : caps) : caps := mkCaps (closed st) (Some []).

Definition close_group (st : caps) : caps :=
  match opened st with
  | Some acc => mkCaps (string_of_list_ascii (rev acc) :: closed st) None
  | None => st
  end.

(** [groups st] is [m.groups()]: group 1 first. *)
Definition groups (st : caps) : list string := rev (closed st).

Section Greedy.
Context {R : Type}.
Variable p : ascii -> bool.
Variable k : caps -> string -> option R.

(** Greedy repetition: take as many characters as the class allows,
    then give back one at a time until the rest of the pattern
    matches. *)
Fixpoint greedy (st : caps) (s : string) {struct s} : option R :=
  match s with
  | String a s' =>
      if p a then
        match greedy (take a st) s' with
        | Some r => Some r
        | None => k st s
        end
      else k st s
  | EmptyString => k st s
  end.
End Greedy.

(** Match [pat] at the start of [s] ([re.match]). *)
Fixpoint match_here (pat : pattern) (st : caps) (s : string)
  {struct pat} : option (list string) :=
  match pat with
  | [] => Some (groups st)
  | Chr c :: pat' =>
      match s with
      | String a s' =>
          if Ascii.eqb a c then match_here pat' (take a st) s' else None
      | EmptyString => None
      end
  | Cls p :: pat' =>
      match s with
      | String a s' =>
          if p a then match_here pat' (take a st) s' else None
      | EmptyString => None
      end
  | Star p :: pat' => greedy p (match_here pat') st s
  | Plus p :: pat' =>
      match s with
      | String a s' =>
          if p a then greedy p (match_here pat') (take a st) s' else None
      | EmptyString => None
      end
  | GOpen :: pat' => match_here pat' (open_group st) s
  | GClose :: pat' => match_here pat' (close_group st) s
  end.

(** [re.search(pat, s)]: the match at the leftmost position that has
    one; [None] when no position has. *)
Fixpoint search (pat : pattern) (s : string) : option (list string) :=
  match match_here pat no_caps s with
  | Some g => Some g
  | None =>
      match s with
      | String _ s' => search pat s'
      | EmptyString => None
      end
  end.

(** What greedy repetition comes to after a run [run] of the class, when
    nothing matches further right: the continuation is tried where ever
    fewer characters of the run are taken, the longest take first. *)
Fixpoint give_back {R : Type} (k : caps -> string -> option R) (st : caps)
  (run tail : string) : option R :=
  match run with
  | EmptyString => None
  | String a run' =>
      match give_back k st run' tail with
      | Some r => Some r
      | None => k st (String a run' ++ tail)%string
      end
  end.

(** The captures after a whole run of characters has been taken. *)
Fixpoint take_run (run : string) (st : caps) : caps :=
  match run with
  | EmptyString => st
  | String a run' => take_run run' (take a st)
  end.

(** No atom of the pattern accepts the character [c]. *)
Fixpoint rejects (c : ascii) (pat : pattern) : bool :=
  match pat with
  | [] => true
  | Chr c' :: pat' => (negb (Ascii.eqb c c') && rejects c pat')%bool
  | Cls p :: pat' | Star p :: pat' | Plus p :: pat' =>
      (negb (p c) && rejects c pat')%bool
  | GOpen :: pat' | GClose :: pat' => rejects c pat'
  end.

(** [m.group(i)], [i >= 1]. *)
Definition group (g : list string) (i : nat) : string :=
  nth (i - 1) g EmptyString.

(** [([\d.]+)] *)
Definition number_group : pattern := [GOpen; Plus digit_or_dot; GClose].

(** The width pattern: <svg, any run without >, width= and a quoted
    number group. *)
Definition width_re : pattern :=
  (lit "<svg" ++ [Star not_gt] ++ lit "width=" ++ [Chr dquote]
    ++ number_group ++ [Chr dquote])%list.

(** The height pattern, the same with height=. *)
Definition height_re : pattern :=
  (lit "<svg" ++ [Star not_gt] ++ lit "height=" ++ [Chr dquote]
    ++ number_group ++ [Chr dquote])%list.

(** The viewBox pattern: inside the quoted value any run without a
    quote, then white space, a number group, white space, a number group
    and the closing quote. *)
Definition viewbox_re : pattern :=
  (lit "<svg" ++ [Star not_gt] ++ lit "viewBox=" ++ [Chr dquote]
    ++ [Star not_quote]
    ++ [Cls is_space] ++ number_group ++ [Cls is_space] ++ number_group
    ++ [Chr dquote])%list.

(** The style pattern: inside the quoted value width:, optional white
    space, a number group, px; then any run without a quote, height:,
    optional white space, a number group, px; and the closing quote. *)
Definition style_re : pattern :=
  (lit "<svg" ++ [Star not_gt] ++ lit "style=" ++ [Chr dquote]
    ++ [Star not_quote]
    ++ lit "width:" ++ [Star is_space] ++ number_group ++ lit "px;"
    ++ [Star not_quote] ++ lit "height:" ++ [Star is_space] ++ number_group
    ++ lit "px;" ++ [Chr dquote])%list.

(** The part of the viewBox pattern after the run without quotes: white
    space, a number, white space, a number, the closing quote. *)
Definition two_numbers : pattern :=
  [Cls is_space; GOpen; Plus digit_or_dot; GClose;
   Cls is_space; GOpen; Plus digit_or_dot; GClose;
   Chr dquote].

(** The text of an attribute, [name="value"], followed by [rest]. *)
Definition attribute (name value rest : string) : string :=
  (name ++ String "=" (String dquote (value ++ String dquote rest)))%string.

(** Documents are written with apostrophes where the file has double
    quotes: [doc] puts the double quotes back. *)
Fixpoint doc (s : string) : string :=
  match s with
  | EmptyString => EmptyString
  | String a s' => String (if Ascii.eqb a "'" then dquote else a) (doc s')
  end.

End Re.

(** ** Exceptions and results *)

(** What a [CairoRenderError] reports; each carries the number its message
    formats. *)
Inductive cairo_failure : Type :=
| ErrorLoadingSVG (status_string : Z)     (* 'Error loading SVG: ...' *)
| RenderingFailed (status : Z)            (* 'Rendering failed with status: ...' *)
| PngWriteFailed (status : Z)             (* 'PNG write failed with status: ...' *)
| PngStreamFailed (status : Z).           (* 'PNG stream failed with status: ...' *)

Inductive exn : Type :=
| InvalidFileExtensionError (msg : string)
| SVGParseError (msg : string)
| CairoRenderError (what : cairo_failure)
| SurfaceXmlRenderingFormatError (msg : string)
| DependencyError (msg : string)
| ValueError (msg : string)
| AttributeError
| TypeError
| OverflowError
| UnicodeEncodeError
| ImportError (msg : string)
| OtherError (name : string).

Inductive res (A : Type) : Type :=
| Ok (a : A)
| Raise (e : exn).
Arguments Ok {A} a.
Arguments Raise {A} e.

(** ** Python numbers *)

Module PyNum.

(** A width or height is an [int] or a [float].  A finite float is given
    by its exact value, a rational; the infinities and NaN are values of
    their own. *)
Inductive num : Type :=
| PyInt (z : Z)
| PyFloat (q : Q)
| PyInf (negative : bool)
| PyNaN.

Definition digit_val (a : ascii) : Z := Z.of_nat (nat_of_ascii a) - 48.

(** One pass over a numeral of digits and dots: the digits read as an
    integer, whether the dot was seen, the number of digits after it, and
    the number of digits.  [None] when a second dot or another character
    is met, or when there is no digit at all. *)
Fixpoint scan (s : string) (mant : Z) (dot : bool) (frac digits : nat)
  : option (Z * nat) :=
  match s with
  | EmptyString =>
      match digits with O => None | S _ => Some (mant, frac) end
  | String a s' =>
      if Re.is_digit a then
        scan s' (10 * mant + digit_val a) dot
             (if dot then S frac else frac) (S digits)
      else if Ascii.eqb a "." then
        if dot then None else scan s' mant true frac digits
      else None
  end.

(** [n / d] is at least [2 ^ e]. *)
Definition at_least_pow2 (n d e : Z) : bool :=
  if 0 <=? e then d * 2 ^ e <=? n else d <=? n * 2 ^ (- e).

(** The binary64 float nearest to [n / d] ([0 <= n], [0 < d]), ties to
    the even mantissa: 53 bits of mantissa, the unit in the last place no
    smaller than [2 ^ -1074], and infinity from [2 ^ 1024] on. *)
Definition round_binary64 (n d : Z) : num :=
  if n =? 0 then PyFloat 0
  else
    let e0 := Z.log2 n - Z.log2 d in
    let e := if at_least_pow2 n d e0 then e0 else e0 - 1 in
    let t := Z.max (e - 52) (- 1074) in
    let num_ := if 0 <=? t then n else n * 2 ^ (- t) in
    let den := if 0 <=? t then d * 2 ^ t else d in
    let q0 := num_ / den in
    let rest := num_ mod den in
    let mant :=
      if 2 * rest <? den then q0
      else if den <? 2 * rest then q0 + 1
      else if Z.even q0 then q0 else q0 + 1 in
    if 0 <=? t then
      if 2 ^ 1024 <=? mant * 2 ^ t then PyInf false
      else PyFloat (Qmake (mant * 2 ^ t) 1)
    else PyFloat (Qred (Qmake mant (Z.to_pos (2 ^ (- t))))).

(** [float(s)] for [s] over digits and dots: the float nearest to the
    decimal numeral; [None] is [ValueError]. *)
Definition float (s : string) : option num :=
  match scan s 0 false 0 0 with
  | Some (m, k) => Some (round_binary64 m (10 ^ Z.of_nat k))
  | None => None
  end.

(** [int(x)]: truncation towards zero; an infinity raises
    [OverflowError] and NaN raises [ValueError]. *)
Definition int (x : num) : res Z :=
  match x with
  | PyInt z => Ok z
  | PyFloat q => Ok (Z.quot (Qnum q) (Zpos (Qden q)))
  | PyInf _ => Raise OverflowError
  | PyNaN => Raise (ValueError "cannot convert float NaN to integer")
  end.

(** What a C [int] holds of a Python integer passed under
    [argtypes = c_int]: the value modulo [2 ^ 32], signed. *)
Definition c_int (z : Z) : Z := (z + 2 ^ 31) mod 2 ^ 32 - 2 ^ 31.

(** The white space [int(s)] strips from both ends of a [str]: the ASCII
    white space and, of the characters from 128 on, the Unicode spaces. *)
Definition int_space (a : ascii) : bool :=
  let n := nat_of_ascii a in
  ((Nat.leb 9 n && Nat.leb n 13) || Nat.eqb n 32
   || Nat.eqb n 133 || Nat.eqb n 160)%bool.

Fixpoint lstrip (s : string) : string :=
  match s with
  | String a s' => if int_space a then lstrip s' else s
  | EmptyString => EmptyString
  end.

Fixpoint rstrip (s : string) : string :=
  match s with
  | EmptyString => EmptyString
  | String a s' =>
      match rstrip s' with
      | EmptyString => if int_space a then EmptyString else String a EmptyString
      | r => String a r
      end
  end.

(** The run of decimal digits, with single underscores between them, at
    the head of [s]: its value, the number of its digits, and the rest of
    [s].  [digit_before] says that the character before was a digit;
    [None] when the run is empty or an underscore is out of place. *)
Fixpoint int_run (s : string) (acc digits : Z) (digit_before : bool)
  : option (Z * Z * string) :=
  match s with
  | EmptyString => if digit_before then Some (acc, digits, EmptyString) else None
  | String a s' =>
      if Re.is_digit a then
        int_run s' (10 * acc + digit_val a) (digits + 1) true
      else if Ascii.eqb a "_" then
        if digit_before then int_run s' acc digits false else None
      else if digit_before then Some (acc, digits, s) else None
  end.

(** [sys.get_int_max_str_digits()], as the interpreter starts. *)
Definition int_max_str_digits : Z := 4300.

(** The two [ValueError]s of [int(s)].  (The first message goes on with
    the repr of the literal, the second with the number of digits; both
    are left out.) *)
Definition invalid_literal : exn :=
  ValueError "invalid literal for int() with base 10".

Definition too_many_digits : exn :=
  ValueError "Exceeds the limit (4300 digits) for integer string conversion".

(** [int(s)] for a [str], base 10: white space around, an optional sign,
    then the digits.  A run of more digits than the limit is refused
    before what follows it is looked at. *)
Definition int_of_str (s : string) : res Z :=
  let digits (negative : bool) (t : string) : res Z :=
    match int_run t 0 0 false with
    | Some (v, n, rest) =>
        if int_max_str_digits <? n then Raise too_many_digits
        else
          match rest with
          | EmptyString => Ok (if negative then - v else v)
          | String _ _ => Raise invalid_literal
          end
    | None => Raise invalid_literal
    end in
  match lstrip (rstrip s) with
  | String a s' =>
      if Ascii.eqb a "-" then digits true s'
      else if Ascii.eqb a "+" then digits false s'
      else digits false (String a s')
  | EmptyString => Raise invalid_literal
  end.

End PyNum.

Export PyNum.

(** ** The call log *)

(** A native pointer as ctypes hands it to Python: an integer, 0 for NULL
    (ctypes gives [None], falsy like 0). *)
Definition ptr := Z.

Definition non_null (p : ptr) : bool := negb (p =? 0).

(** The argument of [open]: [from_file] is a [str] or, for an
    [XmlGraphic], a [bytes] value. *)
Inductive fsarg : Type :=
| AsStr (path : UStr.t)
| AsBytes (b : string).

(** Every call that leaves the interpreter, in the order made, with the
    arguments as the callee receives them (a path as its bytes, an integer
    as the C [int] it becomes) and with what it returned. *)
Inductive event : Type :=
| EvOpen (a : fsarg)
| EvLoadLibraries
| EvDefineFunctionTypes
| Ev_rsvg_handle_new_from_data (data : string) (len : Z) (ret : ptr)
| Ev_rsvg_handle_new_from_file (path : string) (ret : ptr)
| Ev_cairo_status_to_string (ret : Z)
| Ev_cairo_image_surface_create (format width height : Z) (ret : ptr)
| Ev_cairo_create (surface : ptr) (ret : ptr)
| Ev_rsvg_handle_render_cairo (handle context : ptr) (ret : Z)
| Ev_cairo_surface_write_to_png (surface : ptr) (path : string) (ret : Z)
| Ev_cairo_surface_write_to_png_stream (surface : ptr) (ret : Z)
| Ev_cairo_image_surface_get_stride (surface : ptr) (ret : Z)
| Ev_cairo_destroy (context : ptr)
| Ev_cairo_surface_destroy (surface : ptr)
| Ev_rsvg_handle_close (handle : ptr).

Definition log := list event.

(** A computation: the calls it made and how it ended. *)
Definition M (A : Type) : Type := (log * res A)%type.

Definition ret {A} (a : A) : M A := ([], Ok a).

Definition raise {A} (e : exn) : M A := ([], Raise e).

Definition bind {A B} (m : M A) (f : A -> M B) : M B :=
  match m with
  | (l, Ok a) => let (l', r) := f a in (l ++ l', r)
  | (l, Raise e) => (l, Raise e)
  end.

(** A call that returns [v] and is logged as [ev]. *)
Definition call {A} (ev : event) (v : A) : M A := ([ev], Ok v).

(** An evaluation inside the interpreter: no call, a value or an
    exception. *)
Definition lift {A} (r : res A) : M A := ([], r).

(** [try: body finally: final]: [final] runs however [body] ends; the
    outcome is that of [body] unless [final] raises. *)
Definition try_finally {A} (body : M A) (final : M unit) : M A :=
  let (l, r) := body in
  let (l', r') := final in
  (l ++ l', match r' with Raise e => Raise e | Ok _ => r end).

Declare Scope py_scope.
Delimit Scope py_scope with py.
Notation "x <- m ;; k" := (bind m (fun x => k))
  (at level 61, m at next level, right associativity) : py_scope.
Notation "m ;;; k" := (bind m (fun _ => k))
  (at level 61, right associativity) : py_scope.
Local Open Scope py_scope.

(** ** The environment *)

(** How [open(...)] followed by [read()] ends. *)
Inductive open_outcome : Type :=
| Text (content : string)
| RaisesIOError (text : string)
| RaisesOther (e : exn).

(** The root element [bs4] finds: [tag.get(name)]. *)
Definition tag := string -> option string.

(** Everything outside the interpreter.  The native functions are the ones
    [_define_function_types] declares, each a function of the arguments
    that reach it; the three that release a resource return nothing and
    appear in the log only. *)
Record world : Type := mkWorld {
  (* bs4.BeautifulSoup(xml, 'xml').find('svg') *)
  bs4_find_svg : string -> option tag;
  open_read : fsarg -> open_outcome;
  load_libraries : option exn;
  define_function_types : option exn;
  rsvg_handle_new_from_data : string -> Z -> ptr;
  rsvg_handle_new_from_file : string -> ptr;
  rsvg_handle_render_cairo : ptr -> ptr -> Z;
  cairo_status_to_string : Z;
  cairo_image_surface_create : Z -> Z -> Z -> ptr;
  cairo_create : ptr -> ptr;
  cairo_image_surface_get_stride : ptr -> Z;
  cairo_surface_write_to_png : ptr -> string -> Z;
  (* the chunks handed to the write callback, and the status *)
  cairo_surface_write_to_png_stream : ptr -> list string * Z
}.

(** ** [class XmlGraphic(bytes)] *)

Module XmlGraphic.

(** The [bytes] value of the object (fixed at construction) and the
    attributes [__init__] sets. *)
Record t : Type := mk {
  bytes : string;
  xml : string;
  w : option string;
  h : option string
}.

Section Methods.
Variable W : world.

(** [XmlGraphic(xml)]: [find('svg')] gives [None] when the document has
    no svg element, and [None.get] raises [AttributeError]. *)
Definition new (xml0 : string) : M t :=
  match bs4_find_svg W xml0 with
  | Some root => ret (mk xml0 xml0 (root "width") (root "height"))
  | None => raise AttributeError
  end.

Definition render (self : t) : string := xml self.
End Methods.

(** [size(self)]: each attribute without its last two characters, as an
    [int].  A missing attribute is [None], and [len(None)] raises
    [TypeError]. *)
Definition size (self : t) : M (Z * Z) :=
  let dimension (attribute : option string) : M Z :=
    match attribute with
    | Some v =>
        lift (int_of_str (PyStr.slice_to v (Z.of_nat (String.length v) - 2)))
    | None => raise TypeError
    end in
  bind (dimension (w self)) (fun x =>
  bind (dimension (h self)) (fun y => ret (x, y))).

End XmlGraphic.

(** ** [class SvgImageSurface] *)

(** [from_file: Optional[str | XmlGraphic]] *)
Inductive source : Type :=
| FromNone
| FromStr (path : UStr.t)
| FromXml (g : XmlGraphic.t).

Record SvgImageSurface : Type := mkSurface {
  save_bg : bool;
  from_file : source;
  to_file : option UStr.t;
  width : num;
  height : num
}.

(** Truthiness of an [Optional[str]]. *)
Definition given (o : option UStr.t) : bool :=
  match o with
  | Some s => PyStr.truthy s
  | None => false
  end.

(** The resources of a render session. *)
Inductive kind : Type := Document | Surface | Context.

Definition resource := (kind * ptr)%type.

(** What an event acquires: a non-null pointer returned by a constructor. *)
Definition acquires (ev : event) : list resource :=
  match ev with
  | Ev_rsvg_handle_new_from_data _ _ r
  | Ev_rsvg_handle_new_from_file _ r => if non_null r then [(Document, r)] else []
  | Ev_cairo_image_surface_create _ _ _ r => if non_null r then [(Surface, r)] else []
  | Ev_cairo_create _ r => if non_null r then [(Context, r)] else []
  | _ => []
  end.

(** What an event releases. *)
Definition releases (ev : event) : list resource :=
  match ev with
  | Ev_cairo_destroy c => [(Context, c)]
  | Ev_cairo_surface_destroy s => [(Surface, s)]
  | Ev_rsvg_handle_close h => [(Document, h)]
  | _ => []
  end.

(** The resources a log acquires and releases, in the order of the log. *)
Definition acquired (l : log) : list resource := flat_map acquires l.
Definition released (l : log) : list resource := flat_map releases l.

Definition kind_eqb (a b : kind) : bool :=
  match a, b with
  | Document, Document | Surface, Surface | Context, Context => true
  | _, _ => false
  end.

Definition resource_eqb (a b : resource) : bool :=
  (kind_eqb (fst a) (fst b) && (snd a =? snd b))%bool.

(** How often [r] is released in [l]. *)
Definition release_count (r : resource) (l : log) : nat :=
  List.length (filter (resource_eqb r) (released l)).

(** Every resource the log acquires is released exactly once, and nothing
    else is released. *)
Definition balanced (l : log) : Prop :=
  (forall r, In r (acquired l) -> release_count r l = 1%nat)
  /\ (forall r, In r (released l) -> In r (acquired l)).

Section Surface.
Variable W : world.

(** [open(self.from_file, 'r')] and [f.read()], with the [except IOError]
    clause of lines 82-86. *)
Definition read_source (from : source) : M string :=
  let opening (a : fsarg) : M string :=
    match open_read W a with
    | Text content => call (EvOpen a) content
    | RaisesIOError e =>
        call (EvOpen a) tt ;;;
        raise (SVGParseError ("Error reading SVG file: " ++ e)%string)
    | RaisesOther e => call (EvOpen a) tt ;;; raise e
    end in
  match from with
  | FromStr path => opening (AsStr path)
  | FromXml g => opening (AsBytes (XmlGraphic.bytes g))
  | FromNone => raise TypeError
  end.

(** [float(a), float(b)] *)
Definition floats (a b : string) : M (num * num) :=
  let conv (s : string) : M num :=
    match PyNum.float s with
    | Some x => ret x
    | None =>
        raise (ValueError ("could not convert string to float: '" ++ s ++ "'")%string)
    end in
  x <- conv a ;; y <- conv b ;; ret (x, y).

(** Lines 88-106 of [_get_svg_dimensions]: the three patterns in order. *)
Definition parse_dimensions (content : string) : M (num * num) :=
  let width_match := Re.search Re.width_re content in
  let height_match := Re.search Re.height_re content in
  match width_match, height_match with
  | Some wm, Some hm => floats (Re.group wm 1) (Re.group hm 1)
  | _, _ =>
      match Re.search Re.viewbox_re content with
      | Some vm => floats (Re.group vm 1) (Re.group vm 2)
      | None =>
          match Re.search Re.style_re content with
          | Some sm => floats (Re.group sm 1) (Re.group sm 2)
          | None => raise (SVGParseError "Could not determine SVG dimensions")
          end
      end
  end.

(** [_get_svg_dimensions(self, width, height)]; of [self] it reads
    [from_file] only. *)
Definition _get_svg_dimensions (from : source) (width height : option num)
  : M (num * num) :=
  match width, height with
  | Some w, Some h => ret (w, h)
  | _, _ => content <- read_source from ;; parse_dimensions content
  end.

Definition _load_libraries : M unit :=
  call EvLoadLibraries tt ;;;
  match load_libraries W with Some e => raise e | None => ret tt end.

Definition _define_function_types : M unit :=
  call EvDefineFunctionTypes tt ;;;
  match define_function_types W with Some e => raise e | None => ret tt end.

(** [SvgImageSurface(from_file, to_file, save_bg, width, height)] *)
Definition __init__ (from : source) (to : option UStr.t) (bg : bool)
  (width height : option num) : M SvgImageSurface :=
  (match from with
   | FromStr path =>
       if negb (PyStr.endswith path ".svg") then
         raise (InvalidFileExtensionError "from_file must end with .svg")
       else
         match to with
         | Some t =>
             if (PyStr.truthy t && negb (PyStr.endswith t ".png"))%bool then
               raise (InvalidFileExtensionError "to_file must end with .png")
             else ret tt
         | None => ret tt
         end
   | _ => ret tt
   end) ;;;
  wh <- _get_svg_dimensions from width height ;;
  _load_libraries ;;;
  _define_function_types ;;;
  ret (mkSurface bg from to (fst wh) (snd wh)).

(** [_cleanup_resources(self, handle, context, surface)].  The second
    operand of each [and] is the bound library function, which is
    truthy. *)
Definition _cleanup_resources (handle context surface : ptr) : M unit :=
  (if non_null context then call (Ev_cairo_destroy context) tt else ret tt) ;;;
  (if non_null surface then call (Ev_cairo_surface_destroy surface) tt else ret tt) ;;;
  (if non_null handle then call (Ev_rsvg_handle_close handle) tt else ret tt).

(** [s.encode('utf-8')] as an evaluation that may raise. *)
Definition encode (s : UStr.t) : M string :=
  match UStr.encode s with
  | Some b => ret b
  | None => raise UnicodeEncodeError
  end.

(** [_render(self)]; the result is [(handle, context, surface)].  The
    arguments of a call are evaluated from left to right before the call
    is made: the path is encoded before the loader is called, and
    [int(self.width)], [int(self.height)] are taken, and may raise, after
    the handle is there and before the surface is asked for. *)
Definition _render (self : SvgImageSurface) : M (ptr * ptr * ptr) :=
  handle <-
    match from_file self with
    | FromXml g =>
        g1 <- XmlGraphic.new W (XmlGraphic.bytes g) ;;
        match bs4_find_svg W (XmlGraphic.render g1) with
        | Some _ =>
            g2 <- XmlGraphic.new W (XmlGraphic.bytes g) ;;
            let data := XmlGraphic.render g2 in
            let n := c_int (Z.of_nat (String.length (XmlGraphic.bytes g))) in
            let r := rsvg_handle_new_from_data W data n in
            call (Ev_rsvg_handle_new_from_data data n r) r
        | None =>
            raise (SurfaceXmlRenderingFormatError
                     "Passed wrong xml format that not supports .svg")
        end
    | FromStr path =>
        name <- encode path ;;
        let r := rsvg_handle_new_from_file W name in
        call (Ev_rsvg_handle_new_from_file name r) r
    | FromNone => ret 0
    end ;;
  if negb (non_null handle) then
    let s := cairo_status_to_string W in
    call (Ev_cairo_status_to_string s) tt ;;;
    raise (CairoRenderError (ErrorLoadingSVG s))
  else
    let surface_format := if negb (save_bg self) then 0 else 1 in
    iw <- lift (PyNum.int (width self)) ;;
    ih <- lift (PyNum.int (height self)) ;;
    let sw := c_int iw in
    let sh := c_int ih in
    let surface := cairo_image_surface_create W surface_format sw sh in
    call (Ev_cairo_image_surface_create surface_format sw sh surface) tt ;;;
    let context := cairo_create W surface in
    call (Ev_cairo_create surface context) tt ;;;
    let render_status := rsvg_handle_render_cairo W handle context in
    call (Ev_rsvg_handle_render_cairo handle context render_status) tt ;;;
    if negb (render_status =? 1) then
      _cleanup_resources handle context surface ;;;
      raise (CairoRenderError (RenderingFailed render_status))
    else ret (handle, context, surface).

(** [_save(self)] *)
Definition _save (self : SvgImageSurface) : M unit :=
  match to_file self with
  | Some path =>
      if PyStr.truthy path then
        hcs <- _render self ;;
        let '(handle, context, surface) := hcs in
        try_finally
          (name <- encode path ;;
           let status := cairo_surface_write_to_png W surface name in
           call (Ev_cairo_surface_write_to_png surface name status) tt ;;;
           if negb (status =? 0) then
             raise (CairoRenderError (PngWriteFailed status))
           else ret tt)
          (_cleanup_resources handle context surface)
      else raise (ValueError "Output file path not specified")
  | None => raise (ValueError "Output file path not specified")
  end.

(** [_tobytes(self)]: the callback appends every chunk to the buffer and
    returns 0. *)
Definition _tobytes (self : SvgImageSurface) : M string :=
  hcs <- _render self ;;
  let '(handle, context, surface) := hcs in
  try_finally
    (let '(chunks, status) := cairo_surface_write_to_png_stream W surface in
     let buffer := String.concat EmptyString chunks in
     call (Ev_cairo_surface_write_to_png_stream surface status) tt ;;;
     if negb (status =? 0) then
       raise (CairoRenderError (PngStreamFailed status))
     else ret buffer)
    (_cleanup_resources handle context surface).

(** [_stride(self)].  The result type declared for the native function is
    [c_void_p], so a stride of 0 comes back as [None]. *)
Definition _stride (self : SvgImageSurface) : M (option Z) :=
  hcs <- _render self ;;
  let '(handle, context, surface) := hcs in
  let r := cairo_image_surface_get_stride W surface in
  call (Ev_cairo_image_surface_get_stride surface r)
       (if r =? 0 then None else Some r).

End Surface.

(** ** [surface.py] *)

Module SVGSurface.

(** The names [unix.py] binds at module level: what it imports and the
    classes it defines. *)
Definition unix_names : list string :=
  ["c_void_p"; "c_char_p"; "c_int"; "POINTER"; "CDLL"; "byref";
   "CFUNCTYPE"; "c_ubyte"; "c_uint"; "subprocess"; "re"; "Optional";
   "Tuple"; "Union"; "io"; "ctypes"; "platform"; "bs4";
   "SurfaceXmlRenderingFormatError"; "DependencyError";
   "InvalidFileExtensionError"; "SVGParseError"; "CairoRenderError";
   "XmlGraphic"; "SvgImageSurface"].

(** [from .unix import name].  (The message goes on with the name of the
    module and its path, which are left out.) *)
Definition import_from (names : list string) (name : string) : res unit :=
  if existsb (String.eqb name) names then Ok tt
  else Raise (ImportError ("cannot import name '" ++ name ++ "'")%string).

(** Line 1 of [surface.py], which runs when the module is imported and
    gives [class SVGSurface] its base. *)
Definition SvgSurface : res unit := import_from unix_names "SvgSurface".

(** [SVGSurface(...).tobytes()], [.save()], [.stride()] for a program
    that imports [surface.py]: each calls the method of the base with an
    underscore before its name. *)
Definition tobytes (W : world) (self : SvgImageSurface) : M string :=
  lift SvgSurface ;;; _tobytes W self.

Definition save (W : world) (self : SvgImageSurface) : M unit :=
  lift SvgSurface ;;; _save W self.

Definition stride (W : world) (self : SvgImageSurface) : M (option Z) :=
  lift SvgSurface ;;; _stride W self.

End SVGSurface.

(** ** The operations of [SvgImageSurface], as one family *)

Inductive operation : Type := Save | Tobytes | Stride.

(** The log of a computation and the exception it ended with, if any. *)
Definition outcome {A} (m : M A) : log * option exn :=
  (fst m, match snd m with Ok _ => None | Raise e => Some e end).

Definition perform (W : world) (op : operation) (self : SvgImageSurface)
  : log * option exn :=
  match op with
  | Save => outcome (_save W self)
  | Tobytes => outcome (_tobytes W self)
  | Stride => outcome (_stride W self)
  end.

(** The resources behind a triple of pointers, in acquisition order; a
    null pointer stands for no resource. *)
Definition held (handle context surface : ptr) : list resource :=
  (if non_null handle then [(Document, handle)] else [])
    ++ (if non_null surface then [(Surface, surface)] else [])
    ++ (if non_null context then [(Context, context)] else []).

(** [a] is a subsequence of [b]. *)
Fixpoint subseq (a b : list kind) {struct b} : bool :=
  match a, b with
  | [], _ => true
  | _ :: _, [] => false
  | x :: a', y :: b' => if kind_eqb x y then subseq a' b' else subseq a b'
  end.

(** A log that released, in reverse order, all it acquired. *)
Definition settled (l : log) : Prop :=
  exists h c s, acquired l = held h c s /\ released l = rev (held h c s).

(** A log that acquired the triple and released nothing. *)
Definition holding (l : log) (h c s : ptr) : Prop :=
  h <> 0 /\ acquired l = held h c s /\ released l = [].

(** ** A sample environment *)

Module Sample.

Definition root : tag := fun _ => None.

(** The native side of a run: what render and the PNG writers return. *)
Definition sample_world (render_status png_status : Z) : world :=
  {| bs4_find_svg := fun b => if PyStr.occurs "<svg" b then Some root else None;
     open_read := fun _ => RaisesIOError "No such file or directory";
     load_libraries := None;
     define_function_types := None;
     rsvg_handle_new_from_data := fun _ _ => 101;
     rsvg_handle_new_from_file := fun _ => 101;
     rsvg_handle_render_cairo := fun _ _ => render_status;
     cairo_status_to_string := 0;
     cairo_image_surface_create := fun _ _ _ => 202;
     cairo_create := fun _ => 303;
     cairo_image_surface_get_stride := fun _ => 400;
     cairo_surface_write_to_png := fun _ _ => png_status;
     cairo_surface_write_to_png_stream := fun _ => (["PNG"], png_status) |}.

(** The same with a file system that holds one document. *)
Definition with_file (path : UStr.t) (content : string) (W : world) : world :=
  {| bs4_find_svg := bs4_find_svg W;
     open_read := fun a =>
       match a with
       | AsStr p => if UStr.eqb p path then Text content else open_read W a
       | AsBytes _ => open_read W a
       end;
     load_libraries := load_libraries W;
     define_function_types := define_function_types W;
     rsvg_handle_new_from_data := rsvg_handle_new_from_data W;
     rsvg_handle_new_from_file := rsvg_handle_new_from_file W;
     rsvg_handle_render_cairo := rsvg_handle_render_cairo W;
     cairo_status_to_string := cairo_status_to_string W;
     cairo_image_surface_create := cairo_image_surface_create W;
     cairo_create := cairo_create W;
     cairo_image_surface_get_stride := cairo_image_surface_get_stride W;
     cairo_surface_write_to_png := cairo_surface_write_to_png W;
     cairo_surface_write_to_png_stream := cairo_surface_write_to_png_stream W |}.


(** A document with no width, height, viewBox or style. *)
Definition bare_document : string :=
  Re.doc "<svg xmlns='http://www.w3.org/2000/svg'><rect/></svg>".


(** An embedded document and one without an svg element. *)
Definition embedded : XmlGraphic.t :=
  XmlGraphic.mk "<svg/>" "<svg/>" None None.

Definition rootless : string := "<html/>".

(** A request for [icon.svg], 100 by 50, written to [icon.png]. *)
Definition icon : SvgImageSurface :=
  mkSurface true (FromStr "icon.svg") (Some ("icon.png" : UStr.t))
    (PyInt 100) (PyInt 50).

(** The same request with an infinite width. *)
Definition endless : SvgImageSurface :=
  mkSurface true (FromStr "icon.svg") (Some ("icon.png" : UStr.t))
    (PyInf false) (PyInt 50).

End Sample.

(** The document is recognised by one of the three patterns: width and
    height together, viewBox, or style. *)
Definition recognized (content : string) : bool :=
  let found (pat : Re.pattern) :=
    match Re.search pat content with Some _ => true | None => false end in
  ((found Re.width_re && found Re.height_re)
   || found Re.viewbox_re || found Re.style_re)%bool.

(** The message of line 106. *)
Definition undetermined : exn :=
  SVGParseError "Could not determine SVG dimensions".

(** ** The native side of one session, by name *)

(** The format [_render] asks for: 1 with [save_bg], 0 without. *)
Definition surface_format (self : SvgImageSurface) : Z :=
  if negb (save_bg self) then 0 else 1.

(** [int(self.width)] and [int(self.height)], in this order, as the C
    integers the canvas receives. *)
Definition c_size (self : SvgImageSurface) : res (Z * Z) :=
  match PyNum.int (width self) with
  | Ok iw =>
      match PyNum.int (height self) with
      | Ok ih => Ok (c_int iw, c_int ih)
      | Raise e => Raise e
      end
  | Raise e => Raise e
  end.

(** A log that acquired a handle and released nothing, because
    [int(self.width)] or [int(self.height)] raised [e]. *)
Definition leaking (self : SvgImageSurface) (l : log) (e : exn) : Prop :=
  c_size self = Raise e
  /\ exists h, h <> 0 /\ acquired l = [(Document, h)] /\ released l = [].

(** The surface the canvas returns for a size, the context it returns
    for that surface, and the status of rendering a handle onto it. *)
Definition session_surface (W : world) (self : SvgImageSurface) (size : Z * Z)
  : ptr :=
  cairo_image_surface_create W (surface_format self) (fst size) (snd size).

Definition session_context (W : world) (self : SvgImageSurface) (size : Z * Z)
  : ptr :=
  cairo_create W (session_surface W self size).

Definition session_status (W : world) (self : SvgImageSurface) (size : Z * Z)
  (handle : ptr) : Z :=
  rsvg_handle_render_cairo W handle (session_context W self size).

(** The three calls [_render] makes once it has a handle and the size. *)
Definition session_calls (W : world) (self : SvgImageSurface) (size : Z * Z)
  (handle : ptr) : log :=
  [Ev_cairo_image_surface_create (surface_format self) (fst size) (snd size)
     (session_surface W self size);
   Ev_cairo_create (session_surface W self size) (session_context W self size);
   Ev_rsvg_handle_render_cairo handle (session_context W self size)
     (session_status W self size handle)].

(** The events of [_cleanup_resources]. *)
Definition cleanup_calls (handle context surface : ptr) : log :=
  (if non_null context then [Ev_cairo_destroy context] else [])
    ++ (if non_null surface then [Ev_cairo_surface_destroy surface] else [])
    ++ (if non_null handle then [Ev_rsvg_handle_close handle] else []).

(** Where the handle of a request comes from: the loader call, if one is
    made, and what it returns; or the exception raised before it. *)
Definition load_step (W : world) (self : SvgImageSurface) : M ptr :=
  match from_file self with
  | FromNone => ret 0
  | FromStr path =>
      match UStr.encode path with
      | Some name =>
          let r := rsvg_handle_new_from_file W name in
          call (Ev_rsvg_handle_new_from_file name r) r
      | None => raise UnicodeEncodeError
      end
  | FromXml g =>
      match bs4_find_svg W (XmlGraphic.bytes g) with
      | Some _ =>
          let data := XmlGraphic.bytes g in
          let n := c_int (Z.of_nat (String.length data)) in
          let r := rsvg_handle_new_from_data W data n in
          call (Ev_rsvg_handle_new_from_data data n r) r
      | None => raise AttributeError
      end
  end.

(** An event that writes a PNG. *)
Definition writes_png (ev : event) : bool :=
  match ev with
  | Ev_cairo_surface_write_to_png _ _ _
  | Ev_cairo_surface_write_to_png_stream _ _ => true
  | _ => false
  end.

(** An event that agrees with the request: the loader is given the source
    (the bytes of the path, or the bytes of the document and their length
    as a C [int]), the surface has the format of the request and its width
    and height as C [int]s, the context is made on that surface, the
    render draws on that context, the PNG is taken from that surface (and
    written to the bytes of the destination), and what is destroyed is that
    context and that surface.  A file opened or a library loaded does not
    agree: the operations do neither. *)
Definition as_requested (W : world) (self : SvgImageSurface) (ev : event) : Prop :=
  match ev with
  | Ev_rsvg_handle_new_from_file name _ =>
      exists path, from_file self = FromStr path /\ UStr.encode path = Some name
  | Ev_rsvg_handle_new_from_data data n _ =>
      exists g, from_file self = FromXml g /\ data = XmlGraphic.bytes g
                /\ n = c_int (Z.of_nat (String.length data))
  | Ev_cairo_image_surface_create f w h r =>
      exists iw ih,
        PyNum.int (width self) = Ok iw /\ PyNum.int (height self) = Ok ih
        /\ f = surface_format self /\ w = c_int iw /\ h = c_int ih
        /\ r = session_surface W self (w, h)
  | Ev_cairo_create s c =>
      exists size, c_size self = Ok size
                   /\ s = session_surface W self size
                   /\ c = session_context W self size
  | Ev_rsvg_handle_render_cairo _ c _ =>
      exists size, c_size self = Ok size /\ c = session_context W self size
  | Ev_cairo_surface_write_to_png s name _ =>
      exists size path,
        c_size self = Ok size /\ s = session_surface W self size
        /\ to_file self = Some path /\ UStr.encode path = Some name
  | Ev_cairo_surface_write_to_png_stream s _
  | Ev_cairo_image_surface_get_stride s _
  | Ev_cairo_surface_destroy s =>
      exists size, c_size self = Ok size /\ s = session_surface W self size
  | Ev_cairo_destroy c =>
      exists size, c_size self = Ok size /\ c = session_context W self size
  | Ev_rsvg_handle_close _ | Ev_cairo_status_to_string _ => True
  | EvOpen _ | EvLoadLibraries | EvDefineFunctionTypes => False
  end.

(** * Properties *)

(** ** The matcher and the numerals on small inputs *)

Example search_width_in_root :
  Re.search Re.width_re
    (Re.doc "<?xml?><svg width='100' height='50'><rect width='3'/></svg>")
  = Some ["100"].
Proof. reflexivity. Qed.

Example search_width_rightmost_in_tag :
  Re.search Re.width_re (Re.doc "<svg stroke-width='2' width='1.5.'>")
  = Some ["1.5."].
Proof. reflexivity. Qed.

Example search_viewbox_last_two_numbers :
  Re.search Re.viewbox_re (Re.doc "<svg viewBox='0 0 1200.5 80.25'")
  = Some ["1200.5"; "80.25"].
Proof. reflexivity. Qed.

Example search_viewbox_rightmost_in_tag :
  Re.search Re.viewbox_re
    (Re.doc "<svg viewBox='0 0 200 80' data-viewBox='0 0 1 2'>")
  = Some ["1"; "2"].
Proof. reflexivity. Qed.

Example search_viewbox_needs_space_before :
  Re.search Re.viewbox_re (Re.doc "<svg viewBox='200 80'>") = None
  /\ Re.search Re.viewbox_re (Re.doc "<svg viewBox='0,0,200 80'>") = None
  /\ Re.search Re.viewbox_re (Re.doc "<svg viewBox='0 0 200 80 '>") = None.
Proof. repeat split; reflexivity. Qed.

Example search_style :
  Re.search Re.style_re (Re.doc "<svg style='width: 64px; height:32.5px;'>")
  = Some ["64"; "32.5"].
Proof. reflexivity. Qed.

Example float_numerals :
  PyNum.float "100" = Some (PyFloat 100) /\ PyNum.float "007" = Some (PyFloat 7)
  /\ PyNum.float "5." = Some (PyFloat 5) /\ PyNum.float ".5" = Some (PyFloat (1 # 2))
  /\ PyNum.float "1.5" = Some (PyFloat (3 # 2))
  /\ PyNum.float "." = None /\ PyNum.float "1.2.3" = None.
Proof. repeat split; reflexivity. Qed.

(** A numeral is rounded to the nearest float, ties to even: 0.1 is not
    a tenth, twenty nines after the dot give 3.0, and from 2 ^ 53 on the
    odd integers are lost. *)
Example float_rounds :
  PyNum.float "0.1"
  = Some (PyFloat (3602879701896397 # 36028797018963968))
  /\ PyNum.float "2.99999999999999999999" = Some (PyFloat 3)
  /\ PyNum.float "9007199254740993" = Some (PyFloat 9007199254740992)
  /\ PyNum.float "9007199254740995" = Some (PyFloat 9007199254740996)
  /\ PyNum.float "9007199254740992.5" = Some (PyFloat 9007199254740992).
Proof. repeat split; vm_compute; reflexivity. Qed.

(** A numeral of 310 digits is beyond the largest float. *)
Example float_overflows :
  PyNum.float (String.concat EmptyString (repeat "9" 310)) = Some (PyInf false)
  /\ PyNum.int (PyInf false) = Raise OverflowError.
Proof. split; vm_compute; reflexivity. Qed.

Example int_truncates :
  PyNum.int (PyFloat (-27 # 10)) = Ok (-2) /\ PyNum.int (PyFloat (27 # 10)) = Ok 2.
Proof. split; reflexivity. Qed.

Example c_int_wraps :
  c_int 100 = 100 /\ c_int (2 ^ 32 + 5) = 5 /\ c_int (2 ^ 31) = - 2 ^ 31
  /\ c_int (2 ^ 100) = 0 /\ c_int (-1) = -1.
Proof. repeat split; reflexivity. Qed.

(** One to four bytes for a code point; a lone surrogate has none. *)
Example encode_forms :
  UStr.encode "icon.svg" = Some "icon.svg"
  /\ option_map String.length (UStr.encode [233%N]) = Some 2%nat
  /\ option_map String.length (UStr.encode [8364%N]) = Some 3%nat
  /\ option_map String.length (UStr.encode [128512%N]) = Some 4%nat
  /\ UStr.encode [55296%N] = None
  /\ UStr.encode (UStr.of_string "a" ++ [57343%N] ++ UStr.of_string ".svg") = None.
Proof. repeat split; reflexivity. Qed.

Example endswith_suffixes :
  PyStr.endswith "icon.svg" ".svg" = true /\ PyStr.endswith ".svg" ".svg" = true
  /\ PyStr.endswith "svg" ".svg" = false /\ PyStr.endswith "icon.svg.png" ".svg" = false.
Proof. repeat split; reflexivity. Qed.

(** The fourth pattern of the resolver, on a file that has the style
    only. *)
Example style_document_resolves :
  _get_svg_dimensions
    (Sample.with_file "icon.svg"
       (Re.doc "<svg style='width: 64px; height: 32px;'></svg>")
       (Sample.sample_world 1 0))
    (FromStr "icon.svg") None None
  = ([EvOpen (AsStr "icon.svg")], Ok (PyFloat 64, PyFloat 32)).
Proof. reflexivity. Qed.

(** A numeral with two dots is matched by the pattern and refused by
    [float]. *)
Example malformed_numeral_raises :
  _get_svg_dimensions
    (Sample.with_file "icon.svg" (Re.doc "<svg width='1.2.3' height='5'>")
       (Sample.sample_world 1 0))
    (FromStr "icon.svg") None None
  = ([EvOpen (AsStr "icon.svg")],
     Raise (ValueError "could not convert string to float: '1.2.3'")).
Proof. reflexivity. Qed.

(** A save that succeeds: acquire, render, write, release. *)
Example save_log :
  _save (Sample.sample_world 1 0) Sample.icon
  = ([Ev_rsvg_handle_new_from_file "icon.svg" 101;
      Ev_cairo_image_surface_create 1 100 50 202;
      Ev_cairo_create 202 303;
      Ev_rsvg_handle_render_cairo 101 303 1;
      Ev_cairo_surface_write_to_png 202 "icon.png" 0;
      Ev_cairo_destroy 303;
      Ev_cairo_surface_destroy 202;
      Ev_rsvg_handle_close 101],
     Ok tt).
Proof. reflexivity. Qed.

(** The PNG writer fails in buffer mode: the three are released all the
    same. *)
Example tobytes_failure_log :
  _tobytes (Sample.sample_world 1 11) Sample.icon
  = ([Ev_rsvg_handle_new_from_file "icon.svg" 101;
      Ev_cairo_image_surface_create 1 100 50 202;
      Ev_cairo_create 202 303;
      Ev_rsvg_handle_render_cairo 101 303 1;
      Ev_cairo_surface_write_to_png_stream 202 11;
      Ev_cairo_destroy 303;
      Ev_cairo_surface_destroy 202;
      Ev_rsvg_handle_close 101],
     Raise (CairoRenderError (PngStreamFailed 11))).
Proof. reflexivity. Qed.

(** ** Logs *)

Lemma acquired_app (l l' : log) : acquired (l ++ l') = acquired l ++ acquired l'.
Proof. apply flat_map_app. Qed.

Lemma released_app (l l' : log) : released (l ++ l') = released l ++ released l'.
Proof. apply flat_map_app. Qed.

Lemma acquired_cons (e : event) (l : log) :
  acquired (e :: l) = acquires e ++ acquired l.
Proof. reflexivity. Qed.

Lemma released_cons (e : event) (l : log) :
  released (e :: l) = releases e ++ released l.
Proof. reflexivity. Qed.

Lemma acquired_nil : acquired [] = [].
Proof. reflexivity. Qed.

Lemma released_nil : released [] = [].
Proof. reflexivity. Qed.

(** Split the resources of a log along its events. *)
Ltac split_log :=
  rewrite ?acquired_app, ?released_app, ?acquired_cons, ?released_cons,
    ?acquired_nil, ?released_nil;
  cbn [acquires releases];
  rewrite ?app_nil_r; cbn [app].

Lemma kind_eqb_eq (a b : kind) : kind_eqb a b = true <-> a = b.
Proof. destruct a, b; simpl; split; congruence. Qed.

Lemma resource_eqb_eq (a b : resource) : resource_eqb a b = true <-> a = b.
Proof.
  destruct a as [ka pa], b as [kb pb]; unfold resource_eqb; simpl.
  rewrite andb_true_iff, kind_eqb_eq, Z.eqb_eq.
  split; [intros [-> ->]; reflexivity | intros E; inversion E; auto].
Qed.

Lemma filter_absent (r : resource) (l : list resource) :
  ~ In r l -> filter (resource_eqb r) l = [].
Proof.
  induction l as [|x l IH]; simpl; intros H; [reflexivity|].
  destruct (resource_eqb r x) eqn:E.
  - apply resource_eqb_eq in E. subst. exfalso. apply H. now left.
  - apply IH. intros I. apply H. now right.
Qed.

(** In a list without repetition every member occurs once, also after
    reversal. *)
Lemma count_in_rev (r : resource) (l : list resource) :
  NoDup l -> In r l -> List.length (filter (resource_eqb r) (rev l)) = 1%nat.
Proof.
  induction 1 as [|x l Hx Hl IH]; simpl; intros I; [contradiction|].
  rewrite filter_app, length_app. simpl.
  destruct I as [->|I].
  - rewrite (proj2 (resource_eqb_eq r r) eq_refl). simpl.
    rewrite filter_absent; [reflexivity|]. now rewrite <- in_rev.
  - rewrite IH by assumption.
    destruct (resource_eqb r x) eqn:E; [|reflexivity].
    apply resource_eqb_eq in E. subst. contradiction.
Qed.

Lemma held_NoDup (h c s : ptr) : NoDup (held h c s).
Proof.
  unfold held.
  destruct (non_null h), (non_null s), (non_null c); simpl;
    repeat constructor; simpl; intuition congruence.
Qed.

Lemma settled_balanced (l : log) : settled l -> balanced l.
Proof.
  intros (h & c & s & Ha & Hr). split; intros r I.
  - unfold release_count. rewrite Hr. rewrite Ha in I.
    apply count_in_rev; [apply held_NoDup | exact I].
  - rewrite Ha. rewrite Hr in I. now apply in_rev.
Qed.

Lemma settled_nothing (l : log) : acquired l = [] -> released l = [] -> settled l.
Proof. intros Ha Hr. exists 0, 0, 0. now rewrite Ha, Hr. Qed.

(** ** [_cleanup_resources] *)

Lemma cleanup_ok (h c s : ptr) :
  exists l, _cleanup_resources h c s = (l, Ok tt)
            /\ acquired l = [] /\ released l = rev (held h c s).
Proof.
  unfold _cleanup_resources, held.
  destruct (non_null h), (non_null c), (non_null s); simpl;
    eexists; repeat split.
Qed.

Lemma held_kinds (h c s : ptr) :
  subseq (map fst (held h c s)) [Document; Surface; Context] = true
  /\ subseq (map fst (rev (held h c s))) [Context; Surface; Document] = true.
Proof.
  unfold held. destruct (non_null h), (non_null c), (non_null s); simpl; auto.
Qed.

Lemma cleanup_exact (h c s : ptr) :
  _cleanup_resources h c s = (cleanup_calls h c s, Ok tt).
Proof.
  unfold _cleanup_resources, cleanup_calls.
  destruct (non_null c), (non_null s), (non_null h); reflexivity.
Qed.

Lemma cleanup_calls_resources (h c s : ptr) :
  acquired (cleanup_calls h c s) = []
  /\ released (cleanup_calls h c s) = rev (held h c s).
Proof.
  unfold cleanup_calls, held.
  destruct (non_null h), (non_null c), (non_null s); split; reflexivity.
Qed.

Lemma non_null_true (p : ptr) : non_null p = true <-> p <> 0.
Proof. unfold non_null. rewrite negb_true_iff. apply Z.eqb_neq. Qed.

(** ** [_render] *)

(** The two ways [int(self.width)], [int(self.height)] can raise. *)
Lemma c_size_raises (self : SvgImageSurface) (e : exn) :
  c_size self = Raise e ->
  e = OverflowError \/ e = ValueError "cannot convert float NaN to integer".
Proof.
  unfold c_size.
  destruct (width self) as [z|q|n|]; cbn;
    try (intros X; inversion X; auto; fail);
    destruct (height self) as [z'|q'|n'|]; cbn;
    intros X; inversion X; auto.
Qed.

(** What the loader step acquires: the handle, if there is one. *)
Lemma load_step_resources (W : world) (self : SvgImageSurface)
  (l : log) (r : res ptr) :
  load_step W self = (l, r) ->
  released l = []
  /\ acquired l = match r with
                  | Ok hd => if non_null hd then [(Document, hd)] else []
                  | Raise _ => []
                  end.
Proof.
  unfold load_step.
  destruct (from_file self) as [|path|g].
  - intros X; inversion X; subst. split; reflexivity.
  - destruct (UStr.encode path); intros X; inversion X; subst; split;
      try reflexivity.
    cbn. now rewrite app_nil_r.
  - destruct (bs4_find_svg W (XmlGraphic.bytes g)); intros X; inversion X;
      subst; split; try reflexivity.
    cbn. now rewrite app_nil_r.
Qed.

(** The two ways the loader step can raise, both before any call. *)
Lemma load_step_raises (W : world) (self : SvgImageSurface) (l : log) (e : exn) :
  load_step W self = (l, Raise e) ->
  l = []
  /\ ((e = AttributeError
       /\ exists g, from_file self = FromXml g
                    /\ bs4_find_svg W (XmlGraphic.bytes g) = None)
      \/ (e = UnicodeEncodeError
          /\ exists path, from_file self = FromStr path
                          /\ UStr.encode path = None)).
Proof.
  unfold load_step.
  destruct (from_file self) as [|path|g].
  - discriminate.
  - destruct (UStr.encode path) eqn:U; [discriminate|].
    intros X; inversion X; subst. split; [reflexivity|]. right.
    split; [reflexivity|]. exists path. auto.
  - destruct (bs4_find_svg W (XmlGraphic.bytes g)) eqn:B; [discriminate|].
    intros X; inversion X; subst. split; [reflexivity|]. left.
    split; [reflexivity|]. exists g. auto.
Qed.

(** [_render] written out over the names of the session. *)
Lemma render_exact (W : world) (self : SvgImageSurface) :
  _render W self
  = match load_step W self with
    | (lh, Raise e) => (lh, Raise e)
    | (lh, Ok hd) =>
        if non_null hd then
          match c_size self with
          | Raise e => (lh, Raise e)
          | Ok size =>
              if session_status W self size hd =? 1 then
                (lh ++ session_calls W self size hd,
                 Ok (hd, session_context W self size, session_surface W self size))
              else
                (lh ++ session_calls W self size hd
                   ++ cleanup_calls hd (session_context W self size)
                        (session_surface W self size),
                 Raise (CairoRenderError
                          (RenderingFailed (session_status W self size hd))))
          end
        else
          (lh ++ [Ev_cairo_status_to_string (cairo_status_to_string W)],
           Raise (CairoRenderError (ErrorLoadingSVG (cairo_status_to_string W))))
    end.
Proof.
  unfold _render.
  match goal with |- bind ?m ?f = _ => set (after := f); set (first := m) end.
  assert (L : first = load_step W self).
  { unfold first, load_step, encode, XmlGraphic.new, XmlGraphic.render.
    destruct (from_file self) as [|path|g]; [reflexivity| |].
    - destruct (UStr.encode path); reflexivity.
    - destruct (bs4_find_svg W (XmlGraphic.bytes g)) eqn:F; [|reflexivity].
      cbn [bind ret XmlGraphic.xml app]. rewrite F. reflexivity. }
  rewrite L. clear L first.
  destruct (load_step W self) as [lh [hd|e]]; [|reflexivity].
  unfold bind at 1. unfold after. clear after.
  destruct (non_null hd); cbn [negb]; [|reflexivity].
  unfold c_size, lift.
  destruct (PyNum.int (width self)) as [iw|e]; [|cbn; now rewrite ?app_nil_r].
  destruct (PyNum.int (height self)) as [ih|e]; [|cbn; now rewrite ?app_nil_r].
  cbn [bind app].
  change (cairo_image_surface_create W (if negb (save_bg self) then 0 else 1)
            (c_int iw) (c_int ih))
    with (session_surface W self (c_int iw, c_int ih)).
  change (cairo_create W (session_surface W self (c_int iw, c_int ih)))
    with (session_context W self (c_int iw, c_int ih)).
  change (rsvg_handle_render_cairo W hd
            (session_context W self (c_int iw, c_int ih)))
    with (session_status W self (c_int iw, c_int ih) hd).
  destruct (session_status W self (c_int iw, c_int ih) hd =? 1); cbn [negb].
  - reflexivity.
  - rewrite cleanup_exact. unfold bind, call, raise, session_calls.
    cbn [app fst snd]. rewrite app_nil_r. reflexivity.
Qed.

Lemma session_calls_resources (W : world) (self : SvgImageSurface)
  (size : Z * Z) (hd : ptr) :
  released (session_calls W self size hd) = []
  /\ (if non_null hd then [(Document, hd)] else [])
       ++ acquired (session_calls W self size hd)
     = held hd (session_context W self size) (session_surface W self size).
Proof. split; [reflexivity|]. unfold held, session_calls. cbn. now rewrite app_nil_r. Qed.

(** A render that returns holds its triple; a render that raises has
    released, in reverse order, what it acquired, unless it is the
    conversion of the size that raised: then the handle stays open. *)
Lemma render_cases (W : world) (self : SvgImageSurface) :
  forall l r, _render W self = (l, r) ->
    match r with
    | Ok (h, c, s) => holding l h c s
    | Raise e => settled l \/ leaking self l e
    end.
Proof.
  intros l r. rewrite render_exact.
  destruct (load_step W self) as [lh [hd|e]] eqn:L;
    destruct (load_step_resources W self _ _ L) as [Hr Ha].
  - destruct (non_null hd) eqn:N.
    + destruct (c_size self) as [size|e] eqn:C.
      * destruct (session_calls_resources W self size hd) as [Sr Sa].
        rewrite N in Sa.
        set (calls := session_calls W self size hd) in *. clearbody calls.
        destruct (session_status W self size hd =? 1).
        -- intros X; inversion X; subst; clear X.
           unfold holding. rewrite acquired_app, released_app, Ha, Hr, Sr.
           repeat split; [now apply non_null_true | exact Sa].
        -- destruct (cleanup_calls_resources hd (session_context W self size)
                       (session_surface W self size)) as [Ca Cr].
           intros X; injection X as <- <-. left.
           exists hd, (session_context W self size), (session_surface W self size).
           rewrite !acquired_app, !released_app, Ha, Hr, Sr, Ca, Cr, app_nil_r.
           split; [exact Sa | reflexivity].
      * intros X; inversion X; subst; clear X. right.
        split; [exact C|]. exists hd.
        repeat split; [now apply non_null_true | exact Ha | exact Hr].
    + intros X; inversion X; subst; clear X. left.
      apply settled_nothing; split_log; rewrite ?Ha, ?Hr; reflexivity.
  - intros X; inversion X; subst; clear X. left.
    now apply settled_nothing.
Qed.

(** ** [_save], [_tobytes], [_stride] *)

Lemma save_exact (W : world) (self : SvgImageSurface) :
  _save W self
  = if given (to_file self) then
      match to_file self, _render W self with
      | Some path, (l, Ok (h, c, s)) =>
          match UStr.encode path with
          | Some name =>
              let status := cairo_surface_write_to_png W s name in
              (l ++ Ev_cairo_surface_write_to_png s name status
                 :: cleanup_calls h c s,
               if status =? 0 then Ok tt
               else Raise (CairoRenderError (PngWriteFailed status)))
          | None => (l ++ cleanup_calls h c s, Raise UnicodeEncodeError)
          end
      | _, (l, Raise e) => (l, Raise e)
      | None, _ => ([], Raise (ValueError "Output file path not specified"))
      end
    else ([], Raise (ValueError "Output file path not specified")).
Proof.
  unfold _save, given. destruct (to_file self) as [path|]; [|reflexivity].
  destruct (PyStr.truthy path); [|reflexivity].
  destruct (_render W self) as [l [[[h c] s]|e]]; [|reflexivity].
  unfold encode.
  destruct (UStr.encode path) as [name|];
    unfold bind, try_finally, call, raise, ret; rewrite cleanup_exact;
    [|reflexivity].
  destruct (cairo_surface_write_to_png W s name =? 0); reflexivity.
Qed.

Lemma tobytes_exact (W : world) (self : SvgImageSurface) :
  _tobytes W self
  = match _render W self with
    | (l, Ok (h, c, s)) =>
        let status := snd (cairo_surface_write_to_png_stream W s) in
        (l ++ Ev_cairo_surface_write_to_png_stream s status :: cleanup_calls h c s,
         if status =? 0 then
           Ok (String.concat EmptyString
                 (fst (cairo_surface_write_to_png_stream W s)))
         else Raise (CairoRenderError (PngStreamFailed status)))
    | (l, Raise e) => (l, Raise e)
    end.
Proof.
  unfold _tobytes.
  destruct (_render W self) as [l [[[h c] s]|e]]; [|reflexivity].
  unfold bind, try_finally, call, raise, ret. rewrite cleanup_exact.
  destruct (cairo_surface_write_to_png_stream W s) as [chunks status].
  cbn [fst snd]. destruct (status =? 0); reflexivity.
Qed.

Lemma stride_exact (W : world) (self : SvgImageSurface) :
  _stride W self
  = match _render W self with
    | (l, Ok (h, c, s)) =>
        (l ++ [Ev_cairo_image_surface_get_stride s
                 (cairo_image_surface_get_stride W s)],
         Ok (if cairo_image_surface_get_stride W s =? 0 then None
             else Some (cairo_image_surface_get_stride W s)))
    | (l, Raise e) => (l, Raise e)
    end.
Proof.
  unfold _stride.
  destruct (_render W self) as [l [[[h c] s]|e]]; reflexivity.
Qed.

(** A log that held its triple is settled once the events of
    [_cleanup_resources] follow, with events between that acquire and
    release nothing. *)
Lemma cleanup_settles (l0 lb : log) (h c s : ptr) :
  holding l0 h c s -> acquired lb = [] -> released lb = [] ->
  settled (l0 ++ lb ++ cleanup_calls h c s).
Proof.
  intros (_ & Ha & Hr) Hba Hbr.
  destruct (cleanup_calls_resources h c s) as [Ca Cr].
  exists h, c, s.
  rewrite !acquired_app, !released_app, Ha, Hr, Hba, Hbr, Ca, Cr, app_nil_r.
  split; reflexivity.
Qed.

(** However [_save] ends, its log is settled, unless the render left the
    handle open. *)
Lemma save_settled (W : world) (self : SvgImageSurface) :
  forall l r, _save W self = (l, r) ->
    settled l \/ exists e, r = Raise e /\ leaking self l e.
Proof.
  intros l r. rewrite save_exact.
  destruct (given (to_file self));
    [|intros X; inversion X; left; now apply settled_nothing].
  destruct (_render W self) as [l0 [[[h c] s]|e]] eqn:E;
    pose proof (render_cases W self _ _ E) as H; cbn iota in H.
  - destruct (to_file self) as [path|];
      [|intros X; inversion X; left; now apply settled_nothing].
    destruct (UStr.encode path) as [name|]; cbn zeta;
      intros X; inversion X; subst; clear X; left.
    + apply (cleanup_settles l0 [_] h c s H); reflexivity.
    + apply (cleanup_settles l0 [] h c s H); reflexivity.
  - destruct (to_file self) as [path|]; intros X; inversion X; subst; clear X.
    + destruct H as [H|H]; [left; exact H | right; exists e; auto].
    + destruct H as [H|H]; [left; exact H | right; exists e; auto].
Qed.

Lemma tobytes_settled (W : world) (self : SvgImageSurface) :
  forall l r, _tobytes W self = (l, r) ->
    settled l \/ exists e, r = Raise e /\ leaking self l e.
Proof.
  intros l r. rewrite tobytes_exact.
  destruct (_render W self) as [l0 [[[h c] s]|e]] eqn:E;
    pose proof (render_cases W self _ _ E) as H; cbn iota in H.
  - cbn zeta. intros X; inversion X; subst; clear X. left.
    apply (cleanup_settles l0 [_] h c s H); reflexivity.
  - intros X; inversion X; subst; clear X.
    destruct H as [H|H]; [left; exact H | right; exists e; auto].
Qed.

(** A stride query that returns has released nothing of the triple it
    acquired. *)
Lemma stride_cases (W : world) (self : SvgImageSurface) :
  forall l r, _stride W self = (l, r) ->
    match r with
    | Ok _ => exists h c s, holding l h c s
    | Raise e => settled l \/ leaking self l e
    end.
Proof.
  intros l r. rewrite stride_exact.
  destruct (_render W self) as [l0 [[[h c] s]|e]] eqn:E;
    pose proof (render_cases W self _ _ E) as H; cbn iota in H.
  - intros X; inversion X; subst; clear X. exists h, c, s.
    destruct H as (Hh & Ha & Hr). repeat split; [exact Hh | |];
      split_log; rewrite ?Ha, ?Hr; reflexivity.
  - intros X; inversion X; subst. exact H.
Qed.

Lemma holding_acquires_document (l : log) (h c s : ptr) :
  holding l h c s -> In (Document, h) (acquired l).
Proof.
  intros (Hh & Ha & _). rewrite Ha. unfold held, non_null.
  apply Z.eqb_neq in Hh. rewrite Hh. now left.
Qed.

(** A log that leaks is not balanced. *)
Lemma leaking_unbalanced (self : SvgImageSurface) (l : log) (e : exn) :
  leaking self l e -> ~ balanced l.
Proof.
  intros (_ & h & _ & Ha & Hr) [B _].
  specialize (B (Document, h)). rewrite Ha in B.
  specialize (B (or_introl eq_refl)).
  unfold release_count in B. rewrite Hr in B. discriminate B.
Qed.

(** How each of the three operations ends, in terms of the resources. *)
Lemma perform_cases (W : world) (op : operation) (self : SvgImageSurface)
  (l : log) (o : option exn) :
  perform W op self = (l, o) ->
  match o with
  | Some e => settled l \/ leaking self l e
  | None =>
      match op with
      | Stride => exists h c s, holding l h c s
      | _ => settled l
      end
  end.
Proof.
  destruct op; unfold perform, outcome.
  - destruct (_save W self) as [l0 r0] eqn:E. cbn [fst snd].
    intros X; inversion X; subst; clear X.
    destruct (save_settled W self _ _ E) as [H|(e & -> & H)]; [|auto].
    destruct r0; auto.
  - destruct (_tobytes W self) as [l0 r0] eqn:E. cbn [fst snd].
    intros X; inversion X; subst; clear X.
    destruct (tobytes_settled W self _ _ E) as [H|(e & -> & H)]; [|auto].
    destruct r0; auto.
  - destruct (_stride W self) as [l0 r0] eqn:E. cbn [fst snd].
    intros X; inversion X; subst; clear X.
    pose proof (stride_cases W self _ _ E) as H. destruct r0; exact H.
Qed.

(** A save or a conversion to bytes that returns has acquired the three
    resources, the handle not null. *)
Lemma returning_acquires (W : world) (op : operation) (self : SvgImageSurface)
  (l : log) :
  perform W op self = (l, None) ->
  exists h c s, h <> 0 /\ acquired l = held h c s.
Proof.
  destruct op; unfold perform, outcome.
  - rewrite save_exact. destruct (given (to_file self)); [|discriminate].
    destruct (_render W self) as [l0 [[[h c] s]|e]] eqn:E;
      [|destruct (to_file self); discriminate].
    destruct (render_cases W self _ _ E) as (Hh & Ha & Hr).
    destruct (to_file self) as [path|]; [|discriminate].
    destruct (UStr.encode path) as [name|]; [|discriminate].
    cbn [fst snd]. intros X; inversion X; subst; clear X.
    destruct (cleanup_calls_resources h c s) as [Ca Cr].
    exists h, c, s. split; [exact Hh|].
    rewrite acquired_app, acquired_cons, Ha, Ca. cbn. now rewrite app_nil_r.
  - rewrite tobytes_exact.
    destruct (_render W self) as [l0 [[[h c] s]|e]] eqn:E; [|discriminate].
    destruct (render_cases W self _ _ E) as (Hh & Ha & Hr).
    cbn [fst snd]. intros X; inversion X; subst; clear X.
    destruct (cleanup_calls_resources h c s) as [Ca Cr].
    exists h, c, s. split; [exact Hh|].
    rewrite acquired_app, acquired_cons, Ha, Ca. cbn. now rewrite app_nil_r.
  - destruct (_stride W self) as [l0 r0] eqn:E. cbn [fst snd].
    destruct r0 as [v|e]; [|discriminate].
    intros X; inversion X; subst; clear X.
    destruct (stride_cases W self _ _ E) as (h & c & s & Hh & Ha & _).
    exists h, c, s. auto.
Qed.

(** C1 (the code departs from the claim).  A render that fails between
    the loading of the document and the creation of the surface releases
    nothing.  The constructor accepts an infinite width; then
    [int(self.width)] raises [OverflowError] after the loader has returned
    a handle: [save], [tobytes] and [stride] alike end with that
    exception, the log is the loader call alone, and the handle is never
    closed. *)
Theorem size_failure_leaves_handle_open (op : operation) :
  __init__ (Sample.sample_world 1 0) (FromStr "icon.svg")
    (Some ("icon.png" : UStr.t)) true (Some (PyInf false)) (Some (PyInt 50))
  = ([EvLoadLibraries; EvDefineFunctionTypes], Ok Sample.endless)
  /\ perform (Sample.sample_world 1 0) op Sample.endless
     = ([Ev_rsvg_handle_new_from_file "icon.svg" 101], Some OverflowError)
  /\ acquired [Ev_rsvg_handle_new_from_file "icon.svg" 101] = [(Document, 101)]
  /\ released [Ev_rsvg_handle_new_from_file "icon.svg" 101] = []
  /\ ~ balanced [Ev_rsvg_handle_new_from_file "icon.svg" 101].
Proof.
  repeat split; try reflexivity; [destruct op; reflexivity|].
  intros [B _]. specialize (B (Document, 101) (or_introl eq_refl)).
  discriminate B.
Qed.

(** The same from a document: a width of 310 digits is read as an
    infinity, and the save of the surface so constructed leaves the handle
    open. *)
Example long_numeral_leaves_handle_open :
  let W :=
    Sample.with_file "icon.svg"
      (Re.attribute "<svg width" (String.concat EmptyString (repeat "9" 310))
         (Re.doc " height='50'></svg>"))
      (Sample.sample_world 1 0) in
  exists self,
    snd (__init__ W (FromStr "icon.svg") (Some ("icon.png" : UStr.t)) true
           None None) = Ok self
    /\ width self = PyInf false
    /\ perform W Save self
       = ([Ev_rsvg_handle_new_from_file "icon.svg" 101], Some OverflowError).
Proof.
  eexists. split; [vm_compute; reflexivity|]. split; reflexivity.
Qed.

(** C8 (the code departs from the claim).  In the call log of [save],
    [tobytes] and [stride] the resources are acquired in the order document
    handle, surface, context.  A [save] or [tobytes] that returns has
    acquired a handle and released all it acquired in the reverse order:
    context, surface, document handle.  A [stride] that returns has
    acquired the same and released nothing.  An operation that raises has
    released all it acquired in the reverse order, unless the conversion
    of the size raised: then the handle is acquired and nothing released. *)
Theorem release_reverses_acquisition (W : world) (op : operation)
  (self : SvgImageSurface) (l : log) (o : option exn) :
  perform W op self = (l, o) ->
  subseq (map fst (acquired l)) [Document; Surface; Context] = true
  /\ subseq (map fst (released l)) [Context; Surface; Document] = true
  /\ match o with
     | Some e => released l = rev (acquired l) \/ leaking self l e
     | None =>
         (exists h c s, h <> 0 /\ acquired l = held h c s)
         /\ released l = match op with
                         | Stride => []
                         | _ => rev (acquired l)
                         end
     end.
Proof.
  intros P.
  assert (S : forall l, settled l ->
            subseq (map fst (acquired l)) [Document; Surface; Context] = true
            /\ subseq (map fst (released l)) [Context; Surface; Document] = true
            /\ released l = rev (acquired l)).
  { intros l' (h & c & s & Ha & Hr). rewrite Ha, Hr.
    destruct (held_kinds h c s). auto. }
  pose proof (perform_cases W op self l o P) as C.
  destruct o as [e|].
  - destruct C as [C|C].
    + destruct (S l C) as (A & R & E). auto.
    + pose proof C as (_ & h & _ & Ha & Hr). rewrite Ha, Hr. cbn. auto.
  - pose proof (returning_acquires W op self l P) as Q.
    destruct op.
    + destruct (S l C) as (A & R & E). auto.
    + destruct (S l C) as (A & R & E). auto.
    + destruct C as (h & c & s & _ & Ha & Hr). rewrite Ha, Hr in *.
      destruct (held_kinds h c s). auto.
Qed.

(** A save that returns releases context, surface and handle in this
    order; a stride query that returns releases none of the three. *)
Lemma release_reverses_acquisition_witness :
  (acquired (fst (perform (Sample.sample_world 1 0) Save Sample.icon))
   = [(Document, 101); (Surface, 202); (Context, 303)]
   /\ released (fst (perform (Sample.sample_world 1 0) Save Sample.icon))
      = [(Context, 303); (Surface, 202); (Document, 101)])
  /\ (acquired (fst (perform (Sample.sample_world 1 0) Stride Sample.icon))
      = [(Document, 101); (Surface, 202); (Context, 303)]
      /\ released (fst (perform (Sample.sample_world 1 0) Stride Sample.icon))
         = []).
Proof.
  split.
  - destruct (release_reverses_acquisition (Sample.sample_world 1 0) Save
                Sample.icon _ None eq_refl) as (_ & _ & _ & R).
    split; [reflexivity | exact R].
  - destruct (release_reverses_acquisition (Sample.sample_world 1 0) Stride
                Sample.icon _ None eq_refl) as (_ & _ & _ & R).
    split; [reflexivity | exact R].
Defined.

(** C2 (the code departs from the claim).  A stride query whose render
    succeeds returns the stride and leaves the document handle, the surface
    and the context unreleased: the log ends with the stride call and has
    no release. *)
Theorem stride_leaves_resources :
  _stride (Sample.sample_world 1 0) Sample.icon
  = ([Ev_rsvg_handle_new_from_file "icon.svg" 101;
      Ev_cairo_image_surface_create 1 100 50 202;
      Ev_cairo_create 202 303;
      Ev_rsvg_handle_render_cairo 101 303 1;
      Ev_cairo_image_surface_get_stride 202 400],
     Ok (Some 400))
  /\ acquired (fst (_stride (Sample.sample_world 1 0) Sample.icon))
     = [(Document, 101); (Surface, 202); (Context, 303)]
  /\ released (fst (_stride (Sample.sample_world 1 0) Sample.icon))
     = []
  /\ ~ balanced (fst (_stride (Sample.sample_world 1 0) Sample.icon)).
Proof.
  repeat split; try reflexivity.
  intros [B _]. specialize (B (Document, 101)).
  assert (I : In (Document, 101)
                (acquired (fst (_stride (Sample.sample_world 1 0)
                                  Sample.icon)))) by (now left).
  apply B in I. discriminate I.
Qed.

(** The same for every environment and request: no stride query that
    returns releases anything, and each has acquired a document handle. *)
Lemma stride_never_releases (W : world) (self : SvgImageSurface) (l : log)
  (v : option Z) :
  _stride W self = (l, Ok v) ->
  released l = [] /\ exists h, In (Document, h) (acquired l).
Proof.
  intros E. pose proof (stride_cases W self _ _ E) as (h & c & s & H).
  split; [apply H | exists h; eapply holding_acquires_document; exact H].
Qed.

(** ** Dimension resolution *)

(** C5.  With both width and height given, [_get_svg_dimensions] returns
    them as they are, whatever the source and the environment, and its log
    is empty: the document is not opened. *)
Theorem explicit_dimensions_returned (W : world) (from : source) (w h : num) :
  _get_svg_dimensions W from (Some w) (Some h) = ([], Ok (w, h)).
Proof. reflexivity. Qed.

Lemma parse_unrecognized (content : string) :
  recognized content = false -> parse_dimensions content = ([], Raise undetermined).
Proof.
  unfold recognized, parse_dimensions. intros H.
  apply orb_false_iff in H as [H Hs]. apply orb_false_iff in H as [Hwh Hv].
  destruct (Re.search Re.viewbox_re content); [discriminate|].
  destruct (Re.search Re.style_re content); [discriminate|].
  destruct (Re.search Re.width_re content); [|reflexivity].
  destruct (Re.search Re.height_re content); [discriminate|reflexivity].
Qed.

Lemma bind_log {A B} (m : M A) (f : A -> M B) (l : log) (a : A) (r : res B) :
  m = (l, Ok a) -> f a = ([], r) -> bind m f = (l, r).
Proof. intros -> E. unfold bind. rewrite E, app_nil_r. reflexivity. Qed.



(** ** Matching the root tag *)

Lemma match_literal_mismatch (p : string) (rest : Re.pattern) :
  forall (st : Re.caps) (s : string),
    PyStr.startswith s p = false ->
    Re.match_here (Re.lit p ++ rest) st s = None.
Proof.
  induction p as [|c p IH]; intros st s H; [discriminate|].
  destruct s as [|a s]; [reflexivity|]. simpl in *.
  destruct (Ascii.eqb a c); [now apply IH | reflexivity].
Qed.

(** Text that does not start with the tag opener still does not when the
    opener follows it. *)
Lemma opener_not_straddled (a : ascii) (pre z : string) :
  PyStr.startswith (String a pre) "<svg" = false ->
  PyStr.startswith (String a pre ++ "<svg" ++ z)%string "<svg" = false.
Proof.
  destruct pre as [|b [|c [|d pre]]]; simpl;
    repeat match goal with
           | |- context [Ascii.eqb ?x ?y] => destruct (Ascii.eqb x y)
           end; auto.
Qed.

(** [re.search] with a pattern that begins with the tag opener passes
    over text in which the opener does not occur. *)
Lemma search_skips_prefix (rest : Re.pattern) (pre z : string) :
  PyStr.occurs "<svg" pre = false ->
  Re.search (Re.lit "<svg" ++ rest) (pre ++ "<svg" ++ z)%string
  = Re.search (Re.lit "<svg" ++ rest) ("<svg" ++ z)%string.
Proof.
  induction pre as [|a pre IH]; intros H; [reflexivity|].
  assert (S : PyStr.startswith (String a pre) "<svg" = false
              /\ PyStr.occurs "<svg" pre = false).
  { cbn [PyStr.occurs] in H.
    destruct (PyStr.startswith (String a pre) "<svg"); [discriminate | auto]. }
  destruct S as [S O].
  change ((String a pre ++ "<svg" ++ z)%string)
    with (String a (pre ++ "<svg" ++ z)%string).
  cbn [Re.search].
  rewrite (match_literal_mismatch "<svg" rest Re.no_caps
             (String a (pre ++ "<svg" ++ z)%string)
             (opener_not_straddled a pre z S)).
  now apply IH.
Qed.

(** Greedy repetition outside a group: when the rest of the pattern
    matches after the repetition has run over [tail], it matches with the
    same groups after a longer run over [run ++ tail]. *)
Lemma greedy_passes_run {R} (p : ascii -> bool)
  (k : Re.caps -> string -> option R) (st : Re.caps) (run tail : string) (r : R) :
  PyStr.all p run = true ->
  Re.opened st = None ->
  Re.greedy p k st tail = Some r ->
  Re.greedy p k st (run ++ tail)%string = Some r.
Proof.
  intros A O G. induction run as [|a run IH]; [exact G|].
  simpl in A. apply andb_true_iff in A as [Pa A].
  simpl. rewrite Pa.
  assert (T : Re.take a st = st) by (unfold Re.take; now rewrite O).
  rewrite T, (IH A). reflexivity.
Qed.

(** A literal that lacks the character [c] does not begin where it did
    not begin before [c] was appended. *)
Lemma startswith_stable (c : ascii) (z : string) :
  forall (p t : string),
    PyStr.all (fun a => negb (Ascii.eqb a c)) p = true ->
    PyStr.startswith t p = false ->
    PyStr.startswith (t ++ String c z)%string p = false.
Proof.
  induction p as [|c' p IH]; intros t A H; [discriminate|].
  simpl in A. apply andb_true_iff in A as [Nc A].
  destruct t as [|a t]; simpl.
  - rewrite Ascii.eqb_sym. apply negb_true_iff in Nc. now rewrite Nc.
  - simpl in H. destruct (Ascii.eqb a c'); [now apply IH | reflexivity].
Qed.

(** Greedy repetition finds nothing over a run in which the literal that
    must follow does not occur, when the run ends at a character outside
    the class and the literal. *)
Lemma greedy_nothing_over_run (p : ascii -> bool) (q : string)
  (rest : Re.pattern) (st : Re.caps) (c : ascii) (z : string) :
  forall run : string,
    PyStr.all p run = true ->
    Re.opened st = None ->
    PyStr.all (fun a => negb (Ascii.eqb a c)) q = true ->
    PyStr.occurs q run = false ->
    p c = false ->
    PyStr.startswith (String c z) q = false ->
    Re.greedy p (Re.match_here (Re.lit q ++ rest)) st (run ++ String c z)%string
    = None.
Proof.
  intros run A O Q N Pc S. induction run as [|a run IH].
  - simpl. rewrite Pc. now apply match_literal_mismatch.
  - simpl in A. apply andb_true_iff in A as [Pa A].
    cbn [PyStr.occurs] in N.
    destruct (PyStr.startswith (String a run) q) eqn:Sa; [discriminate|].
    assert (T : Re.take a st = st) by (unfold Re.take; now rewrite O).
    simpl. rewrite Pa, T, (IH A N).
    apply match_literal_mismatch.
    change (String a (run ++ String c z)%string)
      with (String a run ++ String c z)%string.
    now apply startswith_stable.
Qed.

(** Greedy repetition over a run after which nothing matches gives the
    run back one character at a time. *)
Lemma greedy_gives_back {R} (p : ascii -> bool)
  (k : Re.caps -> string -> option R) (st : Re.caps) (tail : string) :
  forall run : string,
    PyStr.all p run = true ->
    Re.opened st = None ->
    Re.greedy p k st tail = None ->
    Re.greedy p k st (run ++ tail)%string = Re.give_back k st run tail.
Proof.
  intros run A O G. induction run as [|a run IH]; [exact G|].
  simpl in A. apply andb_true_iff in A as [Pa A].
  assert (T : Re.take a st = st) by (unfold Re.take; now rewrite O).
  simpl. rewrite Pa, T, (IH A). reflexivity.
Qed.


(** A pattern of the shape opener, run without [>], rest: it is found in
    a document whose first opener is followed by any attributes and a tail
    on which the rest matches. *)
Lemma search_root_tag (rest : Re.pattern) (pre attrs tail : string)
  (g : list string) :
  PyStr.occurs "<svg" pre = false ->
  PyStr.all Re.not_gt attrs = true ->
  Re.greedy Re.not_gt (Re.match_here rest) Re.no_caps tail = Some g ->
  Re.search (Re.lit "<svg" ++ Re.Star Re.not_gt :: rest)
    (pre ++ "<svg" ++ attrs ++ tail)%string = Some g.
Proof.
  intros O A G. rewrite search_skips_prefix by exact O.
  assert (H : Re.match_here (Re.lit "<svg" ++ Re.Star Re.not_gt :: rest)
                Re.no_caps ("<svg" ++ attrs ++ tail)%string = Some g).
  { cbn. now apply greedy_passes_run. }
  change (("<svg" ++ attrs ++ tail)%string)
    with (String "<" ("svg" ++ attrs ++ tail)%string) in *.
  cbn [Re.search]. rewrite H. reflexivity.
Qed.







(** ** Construction *)

(** C4 (the code departs from the claim).  With an embedded document as
    source the destination is not looked at: the test of the destination
    stands under the test that the source is a [str], so construction of
    a request for [out.jpg] succeeds, while the same request with a file
    path as source is rejected before any call. *)
Theorem embedded_source_skips_destination_check :
  PyStr.endswith "out.jpg" ".png" = false
  /\ __init__ (Sample.sample_world 1 0) (FromXml Sample.embedded)
       (Some ("out.jpg" : UStr.t)) true (Some (PyInt 10)) (Some (PyInt 10))
     = ([EvLoadLibraries; EvDefineFunctionTypes],
        Ok (mkSurface true (FromXml Sample.embedded) (Some ("out.jpg" : UStr.t))
              (PyInt 10) (PyInt 10)))
  /\ __init__ (Sample.sample_world 1 0) (FromStr "icon.svg")
       (Some ("out.jpg" : UStr.t)) true (Some (PyInt 10)) (Some (PyInt 10))
     = ([], Raise (InvalidFileExtensionError "to_file must end with .png")).
Proof. repeat split; reflexivity. Qed.

(** ** Embedded documents *)

Lemma render_never_reports_format (W : world) (self : SvgImageSurface)
  (msg : string) :
  snd (_render W self) <> Raise (SurfaceXmlRenderingFormatError msg).
Proof.
  rewrite render_exact.
  destruct (load_step W self) as [lh [hd|e]] eqn:L.
  - destruct (non_null hd); [|discriminate].
    destruct (c_size self) as [size|e] eqn:C.
    + destruct (session_status W self size hd =? 1); discriminate.
    + cbn [snd]. intros X. inversion X; subst.
      destruct (c_size_raises self _ C); discriminate.
  - cbn [snd]. intros X. inversion X; subst.
    destruct (load_step_raises W self _ _ L) as (_ & [(D & _) | (D & _)]);
      discriminate.
Qed.

(** C10.  [XmlGraphic(xml)] on bytes in which [bs4] finds no svg element
    raises [AttributeError] at construction; and no render, of any request,
    ends with [SurfaceXmlRenderingFormatError]: [_render] constructs
    [XmlGraphic(self.from_file)] again before it looks for the root, so the
    branch that raises it is never taken. *)
Theorem rootless_document_fails_at_construction (W : world) (xml0 : string) :
  bs4_find_svg W xml0 = None ->
  XmlGraphic.new W xml0 = ([], Raise AttributeError)
  /\ (forall g bg to w h msg,
        XmlGraphic.bytes g = xml0 ->
        snd (_render W (mkSurface bg (FromXml g) to w h)) = Raise AttributeError
        /\ snd (_render W (mkSurface bg (FromXml g) to w h))
           <> Raise (SurfaceXmlRenderingFormatError msg))
  /\ (forall self msg,
        snd (_render W self) <> Raise (SurfaceXmlRenderingFormatError msg)).
Proof.
  intros F. split; [|split].
  - unfold XmlGraphic.new. rewrite F. reflexivity.
  - intros g bg to w h msg B. split; [|apply render_never_reports_format].
    unfold _render, XmlGraphic.new. cbn [from_file]. rewrite B, F. reflexivity.
  - intros self msg. apply render_never_reports_format.
Qed.

Lemma rootless_document_fails_at_construction_witness :
  XmlGraphic.new (Sample.sample_world 1 0) Sample.rootless
  = ([], Raise AttributeError).
Proof.
  apply (rootless_document_fails_at_construction (Sample.sample_world 1 0)
           Sample.rootless).
  reflexivity.
Defined.

(** * Further properties *)

(** ** [XmlGraphic.size] *)

Example int_of_str_forms :
  int_of_str "5" = Ok 5 /\ int_of_str " 5 " = Ok 5
  /\ int_of_str "+5" = Ok 5 /\ int_of_str "-5" = Ok (-5)
  /\ int_of_str "- 5" = Raise invalid_literal
  /\ int_of_str "--5" = Raise invalid_literal
  /\ int_of_str "5_0" = Ok 50 /\ int_of_str "_5" = Raise invalid_literal
  /\ int_of_str "5_" = Raise invalid_literal
  /\ int_of_str "5__0" = Raise invalid_literal
  /\ int_of_str EmptyString = Raise invalid_literal
  /\ int_of_str " " = Raise invalid_literal
  /\ int_of_str "0x10" = Raise invalid_literal /\ int_of_str "007" = Ok 7
  /\ int_of_str "1.5" = Raise invalid_literal
  /\ int_of_str "+" = Raise invalid_literal
  /\ int_of_str "+_5" = Raise invalid_literal
  /\ int_of_str "5 0" = Raise invalid_literal
  /\ int_of_str "-0" = Ok 0 /\ int_of_str "00_1" = Ok 1
  /\ int_of_str (String (ascii_of_nat 160) "5") = Ok 5
  /\ int_of_str (String (ascii_of_nat 28) "5") = Raise invalid_literal
  /\ int_of_str (String (ascii_of_nat 9) "5") = Ok 5.
Proof. repeat split; reflexivity. Qed.

(** A literal of 4300 digits is read; one digit more and [int] refuses,
    whatever follows the digits. *)
Example int_of_str_limit :
  (exists z, int_of_str (String.concat EmptyString (repeat "1" 4300)) = Ok z)
  /\ int_of_str (String.concat EmptyString (repeat "1" 4301))
     = Raise too_many_digits
  /\ int_of_str (String.concat EmptyString (repeat "0" 4301))
     = Raise too_many_digits
  /\ int_of_str (String.concat EmptyString (repeat "1" 4301) ++ "x")
     = Raise too_many_digits
  /\ int_of_str (String.concat EmptyString (repeat "1" 4300) ++ "x")
     = Raise invalid_literal
  /\ int_of_str (String.concat EmptyString (repeat "1_" 4300) ++ "1")
     = Raise too_many_digits
  /\ XmlGraphic.size
       (XmlGraphic.mk EmptyString EmptyString
          (Some (String.concat EmptyString (repeat "1" 4301) ++ "px")%string)
          (Some "50px"))
     = ([], Raise too_many_digits).
Proof.
  split; [eexists; vm_compute; reflexivity|].
  repeat split; vm_compute; reflexivity.
Qed.

Example slice_to_forms :
  PyStr.slice_to "abc" (-5) = EmptyString /\ PyStr.slice_to "abc" 5 = "abc"
  /\ PyStr.slice_to "abc" (-1) = "ab" /\ PyStr.slice_to "100px" 3 = "100".
Proof. repeat split; reflexivity. Qed.

Example size_forms :
  XmlGraphic.size (XmlGraphic.mk EmptyString EmptyString (Some "100px") (Some "50px"))
  = ([], Ok (100, 50))
  /\ XmlGraphic.size (XmlGraphic.mk EmptyString EmptyString (Some "100") (Some "100%"))
     = ([], Ok (1, 10))
  /\ XmlGraphic.size (XmlGraphic.mk EmptyString EmptyString (Some "-5px") (Some " 7px"))
     = ([], Ok (-5, 7)).
Proof. repeat split; reflexivity. Qed.

Lemma substring_prefix (a u : string) :
  substring 0 (String.length a) (a ++ u)%string = a.
Proof. induction a as [|c a IH]; simpl; [now destruct u | now rewrite IH]. Qed.

Lemma length_append (a u : string) :
  String.length (a ++ u)%string = (String.length a + String.length u)%nat.
Proof. induction a as [|c a IH]; simpl; [reflexivity | now rewrite IH]. Qed.

Lemma slice_drops_two (a u : string) :
  String.length u = 2%nat ->
  PyStr.slice_to (a ++ u)%string (Z.of_nat (String.length (a ++ u)%string) - 2) = a.
Proof.
  intros L. unfold PyStr.slice_to. rewrite length_append, L.
  replace (Z.of_nat (String.length a + 2) - 2) with (Z.of_nat (String.length a))
    by (rewrite Nat2Z.inj_add; simpl; ring).
  destruct (Z.of_nat (String.length a) <? 0) eqn:N.
  - apply Z.ltb_lt in N. pose proof (Nat2Z.is_nonneg (String.length a)).
    exfalso. apply (Z.lt_irrefl 0). eapply Z.le_lt_trans; eassumption.
  - rewrite Z.min_l.
    + rewrite Nat2Z.id. apply substring_prefix.
    + apply Nat2Z.inj_le. apply Nat.le_add_r.
Qed.

(** X1.  [size()] reads each attribute without its last two characters,
    whatever these are: when [int] accepts the text before them (white
    space around, an optional sign, digits with single underscores
    between them, no more than 4300 digits), that integer is the
    dimension. *)
Theorem size_reads_all_but_last_two (b x : string) (a c u v : string)
  (m n : Z) :
  String.length u = 2%nat ->
  String.length v = 2%nat ->
  int_of_str a = Ok m ->
  int_of_str c = Ok n ->
  XmlGraphic.size (XmlGraphic.mk b x (Some (a ++ u)%string) (Some (c ++ v)%string))
  = ([], Ok (m, n)).
Proof.
  intros Lu Lv A C. unfold XmlGraphic.size. cbn [XmlGraphic.w XmlGraphic.h].
  rewrite (slice_drops_two a u Lu), (slice_drops_two c v Lv), A, C.
  reflexivity.
Qed.

Lemma size_reads_all_but_last_two_witness :
  XmlGraphic.size
    (XmlGraphic.mk "<svg/>" "<svg/>" (Some "640pt") (Some "1_000 %"))
  = ([], Ok (640, 1000)).
Proof.
  apply (size_reads_all_but_last_two "<svg/>" "<svg/>" "640" "1_000" "pt" " %");
    reflexivity.
Defined.

(** X2.  [size()] raises [TypeError] when the root has no width attribute,
    and [ValueError] when the width has at most two characters (nothing
    is left of it to read), so a plain one- or two-digit width cannot be
    read. *)
Theorem size_fails_on_missing_or_short_width (self : XmlGraphic.t) :
  (XmlGraphic.w self = None -> XmlGraphic.size self = ([], Raise TypeError))
  /\ (forall v, XmlGraphic.w self = Some v -> (String.length v <= 2)%nat ->
        XmlGraphic.size self
        = ([], Raise (ValueError "invalid literal for int() with base 10"))).
Proof.
  split.
  - intros E. unfold XmlGraphic.size. rewrite E. reflexivity.
  - intros v E L. unfold XmlGraphic.size. rewrite E.
    destruct v as [|c1 [|c2 [|c3 v]]]; try reflexivity.
    simpl in L. exfalso. apply (Nat.nle_succ_0 (String.length v)).
    now do 2 apply le_S_n.
Qed.

Lemma size_fails_on_missing_or_short_width_witness :
  XmlGraphic.size Sample.embedded = ([], Raise TypeError)
  /\ XmlGraphic.size (XmlGraphic.mk "<svg/>" "<svg/>" (Some "50") (Some "20px"))
     = ([], Raise (ValueError "invalid literal for int() with base 10")).
Proof.
  split.
  - apply (proj1 (size_fails_on_missing_or_short_width Sample.embedded)).
    reflexivity.
  - apply (proj2 (size_fails_on_missing_or_short_width
                    (XmlGraphic.mk "<svg/>" "<svg/>" (Some "50") (Some "20px")))
             "50"); [reflexivity | repeat constructor].
Defined.

(** ** The shape of a session *)

Lemma c_size_ok (self : SvgImageSurface) (size : Z * Z) :
  c_size self = Ok size ->
  exists iw ih,
    PyNum.int (width self) = Ok iw /\ PyNum.int (height self) = Ok ih
    /\ size = (c_int iw, c_int ih).
Proof.
  unfold c_size.
  destruct (PyNum.int (width self)) as [iw|]; [|discriminate].
  destruct (PyNum.int (height self)) as [ih|]; [|discriminate].
  intros X; inversion X. exists iw, ih. auto.
Qed.

Lemma load_step_as_requested (W : world) (self : SvgImageSurface)
  (lh : log) (r : res ptr) :
  load_step W self = (lh, r) -> Forall (as_requested W self) lh.
Proof.
  unfold load_step. destruct (from_file self) as [|path|g] eqn:F.
  - intros X; inversion X; subst. constructor.
  - destruct (UStr.encode path) as [name|] eqn:U;
      intros X; inversion X; subst; repeat constructor.
    exists path. auto.
  - destruct (bs4_find_svg W (XmlGraphic.bytes g));
      intros X; inversion X; subst; repeat constructor.
    exists g. auto.
Qed.

Lemma load_step_asks_no_surface (W : world) (self : SvgImageSurface)
  (lh : log) (r : res ptr) :
  load_step W self = (lh, r) ->
  forall f w h s, ~ In (Ev_cairo_image_surface_create f w h s) lh.
Proof.
  unfold load_step. destruct (from_file self) as [|path|g].
  - intros X; inversion X; subst. intros f w h p [].
  - destruct (UStr.encode path); intros X; inversion X; subst;
      intros f w h p I; [destruct I as [I|[]]; discriminate I | destruct I].
  - destruct (bs4_find_svg W (XmlGraphic.bytes g)); intros X; inversion X;
      subst; intros f w h p I; [destruct I as [I|[]]; discriminate I | destruct I].
Qed.

Lemma session_calls_as_requested (W : world) (self : SvgImageSurface)
  (size : Z * Z) (hd : ptr) :
  c_size self = Ok size ->
  Forall (as_requested W self) (session_calls W self size hd).
Proof.
  intros C. destruct (c_size_ok self size C) as (iw & ih & Hw & Hh & E).
  unfold session_calls. repeat constructor.
  - exists iw, ih. subst size. repeat split; assumption.
  - exists size. auto.
  - exists size. auto.
Qed.

Lemma cleanup_calls_as_requested (W : world) (self : SvgImageSurface)
  (size : Z * Z) (hd : ptr) :
  c_size self = Ok size ->
  Forall (as_requested W self)
    (cleanup_calls hd (session_context W self size) (session_surface W self size)).
Proof.
  intros C. unfold cleanup_calls.
  destruct (non_null hd), (non_null (session_context W self size)),
    (non_null (session_surface W self size)); repeat constructor;
    exists size; auto.
Qed.

(** What a render returns is the context and the surface of the session,
    and its log agrees with the request. *)
Lemma render_as_requested (W : world) (self : SvgImageSurface) :
  Forall (as_requested W self) (fst (_render W self))
  /\ (forall l h c s, _render W self = (l, Ok (h, c, s)) ->
        exists size, c_size self = Ok size
                     /\ c = session_context W self size
                     /\ s = session_surface W self size).
Proof.
  rewrite render_exact.
  destruct (load_step W self) as [lh [hd|e]] eqn:L;
    pose proof (load_step_as_requested W self lh _ L) as Hl.
  - destruct (non_null hd).
    + destruct (c_size self) as [size|e] eqn:C.
      * pose proof (session_calls_as_requested W self size hd C) as Hs.
        pose proof (cleanup_calls_as_requested W self size hd C) as Hc.
        destruct (session_status W self size hd =? 1); cbn [fst]; split.
        -- apply Forall_app. auto.
        -- intros l h c s X; inversion X; subst. exists size. auto.
        -- apply Forall_app. split; [exact Hl|]. apply Forall_app. auto.
        -- intros l h c s X; discriminate X.
      * split; [exact Hl | intros l h c s X; discriminate X].
    + split; [|intros l h c s X; discriminate X].
      apply Forall_app. split; [exact Hl | repeat constructor].
  - split; [exact Hl | intros l h c s X; discriminate X].
Qed.

Lemma perform_log_as_requested (W : world) (op : operation)
  (self : SvgImageSurface) :
  Forall (as_requested W self) (fst (perform W op self)).
Proof.
  destruct (render_as_requested W self) as [R S].
  destruct op; unfold perform, outcome; cbn [fst].
  - rewrite save_exact. destruct (given (to_file self)); [|constructor].
    destruct (to_file self) as [path|] eqn:T.
    + destruct (_render W self) as [l [[[h c] s]|e]] eqn:E; cbn [fst] in *.
      * destruct (S l h c s eq_refl) as (size & C & -> & ->).
        pose proof (cleanup_calls_as_requested W self size h C) as Hc.
        destruct (UStr.encode path) as [name|] eqn:U; cbn [fst].
        -- apply Forall_app. split; [exact R|].
           constructor; [|exact Hc]. exists size, path. auto.
        -- apply Forall_app. auto.
      * exact R.
    + destruct (_render W self) as [l [[[h c] s]|e]]; [constructor | exact R].
  - rewrite tobytes_exact.
    destruct (_render W self) as [l [[[h c] s]|e]] eqn:E; cbn [fst] in *.
    + destruct (S l h c s eq_refl) as (size & C & -> & ->).
      apply Forall_app. split; [exact R|].
      constructor; [exists size; auto
                   | apply cleanup_calls_as_requested; exact C].
    + exact R.
  - rewrite stride_exact.
    destruct (_render W self) as [l [[[h c] s]|e]] eqn:E; cbn [fst] in *.
    + destruct (S l h c s eq_refl) as (size & C & -> & ->).
      apply Forall_app. split; [exact R | repeat constructor].
      exists size. auto.
    + exact R.
Qed.

(** X3.  In the log of [save], [tobytes] and [stride] every call agrees
    with the request: the loader gets the UTF-8 bytes of the path, or the
    bytes of the embedded document with their length as a C integer (the
    length modulo 2 ^ 32, signed); the surface is asked with format 1
    under [save_bg] and 0 without, and with [int(width)], [int(height)] as
    C integers; the context is made on that surface, the PNG is written
    from that surface to the bytes of the destination, and no file is
    opened and no library loaded. *)
Theorem operations_follow_request (W : world) (op : operation)
  (self : SvgImageSurface) (ev : event) :
  In ev (fst (perform W op self)) -> as_requested W self ev.
Proof.
  apply Forall_forall. apply perform_log_as_requested.
Qed.

Lemma operations_follow_request_witness :
  as_requested (Sample.sample_world 1 0) Sample.icon
    (Ev_cairo_image_surface_create 1 100 50 202).
Proof.
  apply (operations_follow_request (Sample.sample_world 1 0) Save Sample.icon).
  right. left. reflexivity.
Defined.

(** A width of 2 ^ 32 + 5 reaches the canvas as 5. *)
Example wide_request_wraps :
  fst (perform (Sample.sample_world 1 0) Stride
         (mkSurface true (FromStr "icon.svg") None
            (PyInt (2 ^ 32 + 5)) (PyFloat (27 # 10))))
  = [Ev_rsvg_handle_new_from_file "icon.svg" 101;
     Ev_cairo_image_surface_create 1 5 2 202;
     Ev_cairo_create 202 303;
     Ev_rsvg_handle_render_cairo 101 303 1;
     Ev_cairo_image_surface_get_stride 202 400].
Proof. reflexivity. Qed.

(** X4.  [save] returns exactly when a destination is given, the loader
    returns a handle, [int(width)] and [int(height)] do not raise, the
    render status is 1, the destination can be encoded and the PNG writer
    returns 0; its log is then the loading, the three session calls, the
    write to the destination and the release of context, surface and
    handle. *)
Theorem save_succeeds_iff (W : world) (self : SvgImageSurface) (l : log) :
  _save W self = (l, Ok tt) <->
  exists path name lh hd size,
    to_file self = Some path /\ PyStr.truthy path = true
    /\ load_step W self = (lh, Ok hd) /\ hd <> 0
    /\ c_size self = Ok size
    /\ session_status W self size hd = 1
    /\ UStr.encode path = Some name
    /\ cairo_surface_write_to_png W (session_surface W self size) name = 0
    /\ l = lh ++ session_calls W self size hd
             ++ Ev_cairo_surface_write_to_png (session_surface W self size) name 0
                :: cleanup_calls hd (session_context W self size)
                     (session_surface W self size).
Proof.
  rewrite save_exact, render_exact. unfold given. split.
  - destruct (to_file self) as [path|]; [|discriminate].
    destruct (PyStr.truthy path) eqn:T; [|discriminate].
    destruct (load_step W self) as [lh [hd|e]]; [|discriminate].
    destruct (non_null hd) eqn:N; [|discriminate].
    destruct (c_size self) as [size|e]; [|discriminate].
    destruct (session_status W self size hd =? 1) eqn:S; [|discriminate].
    destruct (UStr.encode path) as [name|] eqn:U; [|discriminate].
    cbn zeta.
    destruct (cairo_surface_write_to_png W (session_surface W self size) name =? 0)
      eqn:P; [|discriminate].
    intros X. injection X as <-.
    apply Z.eqb_eq in S, P. apply non_null_true in N.
    exists path, name, lh, hd, size. rewrite P, <- app_assoc.
    repeat split; auto.
  - intros (path & name & lh & hd & size & T & Tr & L & N & C & S & U & P & ->).
    rewrite T, Tr, L. apply non_null_true in N. rewrite N, C, S.
    change (1 =? 1) with true. cbn iota. rewrite U. cbn zeta.
    rewrite P. cbn. rewrite <- app_assoc. reflexivity.
Qed.

(** X5.  [tobytes] returns exactly when the loader returns a handle,
    [int(width)] and [int(height)] do not raise, the render status is 1
    and the stream writer returns 0; the bytes are the chunks handed to the
    callback, joined in order.  The destination plays no part: the result
    is the same for every [to_file]. *)
Theorem tobytes_returns_chunks (W : world) (self : SvgImageSurface)
  (l : log) (b : string) :
  (_tobytes W self = (l, Ok b) <->
   exists lh hd size,
     load_step W self = (lh, Ok hd) /\ hd <> 0
     /\ c_size self = Ok size
     /\ session_status W self size hd = 1
     /\ snd (cairo_surface_write_to_png_stream W (session_surface W self size)) = 0
     /\ b = String.concat EmptyString
              (fst (cairo_surface_write_to_png_stream W (session_surface W self size)))
     /\ l = lh ++ session_calls W self size hd
              ++ Ev_cairo_surface_write_to_png_stream (session_surface W self size) 0
                 :: cleanup_calls hd (session_context W self size)
                      (session_surface W self size))
  /\ (forall to,
        _tobytes W (mkSurface (save_bg self) (from_file self) to
                      (width self) (height self))
        = _tobytes W self).
Proof.
  split; [|intros to; destruct self; reflexivity].
  rewrite tobytes_exact, render_exact. split.
  - destruct (load_step W self) as [lh [hd|e]]; [|discriminate].
    destruct (non_null hd) eqn:N; [|discriminate].
    destruct (c_size self) as [size|e]; [|discriminate].
    destruct (session_status W self size hd =? 1) eqn:S; [|discriminate].
    cbn zeta.
    destruct (snd (cairo_surface_write_to_png_stream W (session_surface W self size))
              =? 0) eqn:P; [|discriminate].
    intros X. injection X as <- <-.
    apply Z.eqb_eq in S, P. apply non_null_true in N.
    exists lh, hd, size. rewrite P, <- app_assoc. repeat split; auto.
  - intros (lh & hd & size & L & N & C & S & P & -> & ->).
    rewrite L. apply non_null_true in N. rewrite N, C, S.
    change (1 =? 1) with true. cbn iota zeta beta.
    rewrite P. cbn iota. rewrite <- app_assoc. reflexivity.
Qed.

Lemma existsb_app_false {A} (f : A -> bool) (l l' : list A) :
  existsb f l = false -> existsb f l' = false -> existsb f (l ++ l') = false.
Proof. intros H H'. rewrite existsb_app, H, H'. reflexivity. Qed.

Lemma cleanup_calls_write_nothing (h c s : ptr) :
  existsb writes_png (cleanup_calls h c s) = false.
Proof.
  unfold cleanup_calls. destruct (non_null h), (non_null c), (non_null s);
    reflexivity.
Qed.

Lemma load_step_writes_nothing (W : world) (self : SvgImageSurface) :
  existsb writes_png (fst (load_step W self)) = false.
Proof.
  unfold load_step.
  destruct (from_file self) as [|path|g];
    [|destruct (UStr.encode path)|destruct (bs4_find_svg W (XmlGraphic.bytes g))];
    reflexivity.
Qed.

Lemma render_writes_nothing (W : world) (self : SvgImageSurface) :
  existsb writes_png (fst (_render W self)) = false.
Proof.
  rewrite render_exact. pose proof (load_step_writes_nothing W self) as L.
  destruct (load_step W self) as [lh [hd|e]]; cbn [fst] in L; [|exact L].
  destruct (non_null hd);
    [destruct (c_size self) as [size|e];
       [destruct (session_status W self size hd =? 1)|]|];
    cbn [fst]; rewrite ?existsb_app, ?cleanup_calls_write_nothing, ?L;
    reflexivity.
Qed.

(** X6.  When the render fails (no handle, or a status other than 1), no
    operation writes a PNG, to a file or to the stream; and a stride query
    never writes one. *)
Theorem failed_render_writes_nothing (W : world) (self : SvgImageSurface) :
  (forall op e, snd (_render W self) = Raise e ->
     existsb writes_png (fst (perform W op self)) = false)
  /\ existsb writes_png (fst (perform W Stride self)) = false.
Proof.
  pose proof (render_writes_nothing W self) as R. split.
  - intros op e F.
    destruct op; unfold perform, outcome; cbn [fst];
      rewrite ?save_exact, ?tobytes_exact, ?stride_exact;
      destruct (_render W self) as [l [[[h c] s]|e']]; try discriminate F;
      cbn [fst] in *.
    + destruct (given (to_file self)); [|reflexivity].
      destruct (to_file self); exact R.
    + exact R.
    + exact R.
  - unfold perform, outcome. cbn [fst].
    rewrite stride_exact.
    destruct (_render W self) as [l [[[h c] s]|e']]; cbn [fst] in *;
      [|exact R].
    rewrite existsb_app, R. reflexivity.
Qed.

Lemma failed_render_writes_nothing_witness :
  existsb writes_png (fst (perform (Sample.sample_world 0 0) Save Sample.icon))
  = false.
Proof.
  apply (proj1 (failed_render_writes_nothing (Sample.sample_world 0 0)
                  Sample.icon) Save (CairoRenderError (RenderingFailed 0))).
  reflexivity.
Defined.

(** X7.  When [int(width)] and [int(height)] do not raise, [save] and
    [tobytes] leave nothing behind however they end: in every log, of a
    call that returns as of one that raises, each acquired resource is
    released exactly once and nothing else is. *)
Theorem save_and_tobytes_balanced (W : world) (self : SvgImageSurface)
  (size : Z * Z) :
  c_size self = Ok size ->
  balanced (fst (perform W Save self))
  /\ balanced (fst (perform W Tobytes self)).
Proof.
  intros C.
  assert (N : forall l e, ~ leaking self l e).
  { intros l e (D & _). rewrite C in D. discriminate D. }
  split; apply settled_balanced; unfold perform, outcome; cbn [fst].
  - destruct (_save W self) as [l r] eqn:E.
    destruct (save_settled W self l r E) as [H|(e & _ & H)];
      [exact H | destruct (N _ _ H)].
  - destruct (_tobytes W self) as [l r] eqn:E.
    destruct (tobytes_settled W self l r E) as [H|(e & _ & H)];
      [exact H | destruct (N _ _ H)].
Qed.

Lemma save_and_tobytes_balanced_witness :
  balanced (fst (perform (Sample.sample_world 1 7) Save Sample.icon))
  /\ balanced (fst (perform (Sample.sample_world 1 7) Tobytes Sample.icon)).
Proof.
  apply (save_and_tobytes_balanced (Sample.sample_world 1 7) Sample.icon
           (100, 50)).
  reflexivity.
Defined.

(** X8.  [save] ends before any call leaves the interpreter in exactly
    three cases: without a destination ([to_file] is [None] or the empty
    string) it raises [ValueError]; with one, for an embedded document
    in which no svg element is found, it raises [AttributeError]; and with
    one, for a path that has no UTF-8 encoding (it holds a lone
    surrogate), it raises [UnicodeEncodeError]. *)
Theorem save_stops_before_native_iff (W : world) (self : SvgImageSurface)
  (e : exn) :
  _save W self = ([], Raise e) <->
  (given (to_file self) = false
   /\ e = ValueError "Output file path not specified")
  \/ (given (to_file self) = true /\ e = AttributeError
      /\ exists g, from_file self = FromXml g
                   /\ bs4_find_svg W (XmlGraphic.bytes g) = None)
  \/ (given (to_file self) = true /\ e = UnicodeEncodeError
      /\ exists path, from_file self = FromStr path
                      /\ UStr.encode path = None).
Proof.
  rewrite save_exact, render_exact. split.
  - destruct (given (to_file self)) eqn:G.
    + destruct (to_file self) as [path|]; [|discriminate G].
      destruct (load_step W self) as [lh [hd|e']] eqn:L.
      * destruct (load_step_resources W self _ _ L) as [_ Ha].
        destruct (non_null hd) eqn:N.
        -- assert (Lh : forall l', lh ++ l' <> []).
           { intros l' X. apply app_eq_nil in X as [X _]. subst lh.
             discriminate Ha. }
           destruct (c_size self) as [size|e2].
           ++ destruct (session_status W self size hd =? 1).
              ** destruct (UStr.encode path) as [name|]; cbn zeta;
                   intros X; exfalso; injection X as X _;
                   rewrite <- app_assoc in X; exact (Lh _ X).
              ** intros X; exfalso; injection X as X _. exact (Lh _ X).
           ++ intros X; exfalso; injection X as X _.
              apply (Lh []). now rewrite app_nil_r.
        -- intros X; exfalso; injection X as X _.
           apply app_eq_nil in X as [_ X]. discriminate X.
      * intros X; injection X as -> ->.
        destruct (load_step_raises W self _ _ L) as (_ & [(D & H) | (D & H)]);
          auto.
    + intros X; inversion X. left. auto.
  - intros [(G & ->) | [(G & -> & g & F & B) | (G & -> & path & F & U)]];
      rewrite G; [reflexivity | |].
    + destruct (to_file self); [|discriminate G].
      unfold load_step. rewrite F, B. reflexivity.
    + destruct (to_file self); [|discriminate G].
      unfold load_step. rewrite F, U. reflexivity.
Qed.

(** A path with a lone surrogate is accepted by the constructor and
    refused by [save] before the loader is called. *)
Example surrogate_path_stops_save :
  let path := [55296%N] ++ UStr.of_string ".svg" in
  fst (__init__ (Sample.sample_world 1 0) (FromStr path)
         (Some ("out.png" : UStr.t)) true (Some (PyInt 1)) (Some (PyInt 1)))
  = [EvLoadLibraries; EvDefineFunctionTypes]
  /\ _save (Sample.sample_world 1 0)
       (mkSurface true (FromStr path) (Some ("out.png" : UStr.t))
          (PyInt 1) (PyInt 1))
     = ([], Raise UnicodeEncodeError).
Proof. split; reflexivity. Qed.

Lemma close_in_cleanup (hd c s : ptr) :
  non_null hd = true -> In (Ev_rsvg_handle_close hd) (cleanup_calls hd c s).
Proof.
  intros N. unfold cleanup_calls. rewrite N.
  apply in_or_app. right. apply in_or_app. right. now left.
Qed.

(** X9.  A render that raises does so in one of five ways: with
    [AttributeError] and an empty log, for an embedded document in which no
    svg element is found; with [UnicodeEncodeError] and an empty log, for a
    path that has no UTF-8 encoding; with the loading error, when there is
    no handle, and then nothing was acquired and no surface asked for; with
    [OverflowError] or [ValueError] from [int(width)] or [int(height)],
    after the handle was loaded and with nothing released and no surface
    asked for; or with the rendering error that carries a status other
    than 1, after the handle was closed. *)
Theorem render_failures (W : world) (self : SvgImageSurface) (l : log) (e : exn) :
  _render W self = (l, Raise e) ->
  (e = AttributeError /\ l = []
   /\ exists g, from_file self = FromXml g
                /\ bs4_find_svg W (XmlGraphic.bytes g) = None)
  \/ (e = UnicodeEncodeError /\ l = []
      /\ exists path, from_file self = FromStr path /\ UStr.encode path = None)
  \/ (e = CairoRenderError (ErrorLoadingSVG (cairo_status_to_string W))
      /\ acquired l = [] /\ released l = []
      /\ forall f w h r, ~ In (Ev_cairo_image_surface_create f w h r) l)
  \/ ((e = OverflowError \/ e = ValueError "cannot convert float NaN to integer")
      /\ c_size self = Raise e
      /\ (exists hd, hd <> 0 /\ acquired l = [(Document, hd)])
      /\ released l = []
      /\ forall f w h r, ~ In (Ev_cairo_image_surface_create f w h r) l)
  \/ (exists hd size,
        hd <> 0 /\ c_size self = Ok size
        /\ session_status W self size hd <> 1
        /\ e = CairoRenderError (RenderingFailed (session_status W self size hd))
        /\ In (Ev_rsvg_handle_close hd) l).
Proof.
  rewrite render_exact.
  destruct (load_step W self) as [lh [hd|e']] eqn:L.
  - destruct (load_step_resources W self _ _ L) as [Hr Ha].
    pose proof (load_step_asks_no_surface W self _ _ L) as Hn.
    destruct (non_null hd) eqn:N.
    + destruct (c_size self) as [size|e2] eqn:C.
      * destruct (session_status W self size hd =? 1) eqn:S; [discriminate|].
        intros X; injection X as <- <-. do 4 right.
        exists hd, size. apply Z.eqb_neq in S.
        split; [now apply non_null_true|].
        split; [reflexivity|]. split; [exact S|]. split; [reflexivity|].
        apply in_or_app. right. do 3 right.
        now apply close_in_cleanup.
      * intros X; injection X as <- <-. do 3 right. left.
        repeat split; [exact (c_size_raises self _ C) | | exact Hr | exact Hn].
        exists hd. split; [now apply non_null_true | exact Ha].
    + intros X; injection X as <- <-. do 2 right. left.
      repeat split.
      * rewrite acquired_app, Ha. reflexivity.
      * rewrite released_app, Hr. reflexivity.
      * intros f w h r I. apply in_app_or in I as [I|[I|[]]];
          [exact (Hn _ _ _ _ I) | discriminate I].
  - intros X; injection X as <- <-.
    destruct (load_step_raises W self _ _ L) as (-> & [(-> & H) | (-> & H)]);
      [left | right; left]; auto.
Qed.

Lemma render_failures_witness :
  exists hd, hd <> 0 /\ In (Ev_rsvg_handle_close hd)
                          (fst (_render (Sample.sample_world 0 0) Sample.icon)).
Proof.
  destruct (render_failures (Sample.sample_world 0 0) Sample.icon
              (fst (_render (Sample.sample_world 0 0) Sample.icon))
              (CairoRenderError (RenderingFailed 0)) eq_refl)
    as [(X & _) | [(X & _) | [(X & _) | [([X|X] & _)
       | (hd & size & N & _ & _ & _ & I)]]]];
    try discriminate X.
  exists hd; split; assumption.
Defined.

(** X24.  An operation that ends with [CairoRenderError] (the document
    did not load, the render call failed, or the PNG writer failed, to a
    file or to the stream) has released each resource it acquired exactly
    once, and nothing else. *)
Theorem reported_failures_are_balanced (W : world) (op : operation)
  (self : SvgImageSurface) (l : log) (what : cairo_failure) :
  perform W op self = (l, Some (CairoRenderError what)) -> balanced l.
Proof.
  intros P. destruct (perform_cases W op self l _ P) as [H|(C & _)].
  - now apply settled_balanced.
  - destruct (c_size_raises self _ C); discriminate.
Qed.

(** The render call fails (status 0) while saving [icon.svg]: the context,
    the surface and the document handle are each released once. *)
Lemma reported_failures_are_balanced_witness :
  perform (Sample.sample_world 0 0) Save Sample.icon
  = ([Ev_rsvg_handle_new_from_file "icon.svg" 101;
      Ev_cairo_image_surface_create 1 100 50 202;
      Ev_cairo_create 202 303;
      Ev_rsvg_handle_render_cairo 101 303 0;
      Ev_cairo_destroy 303;
      Ev_cairo_surface_destroy 202;
      Ev_rsvg_handle_close 101],
     Some (CairoRenderError (RenderingFailed 0)))
  /\ balanced
       [Ev_rsvg_handle_new_from_file "icon.svg" 101;
        Ev_cairo_image_surface_create 1 100 50 202;
        Ev_cairo_create 202 303;
        Ev_rsvg_handle_render_cairo 101 303 0;
        Ev_cairo_destroy 303;
        Ev_cairo_surface_destroy 202;
        Ev_rsvg_handle_close 101].
Proof.
  split; [reflexivity|].
  apply (reported_failures_are_balanced (Sample.sample_world 0 0) Save
           Sample.icon _ (RenderingFailed 0)).
  reflexivity.
Defined.

(** X25.  When the loader returns a handle and [int(width)] or
    [int(height)] raises, [tobytes] and [stride], and [save] with a
    destination, end with that exception right after the loader call:
    no surface is asked for, the handle is not closed, and the log is not
    balanced. *)
Theorem size_failure_leaks_handle (W : world) (op : operation)
  (self : SvgImageSurface) (lh : log) (hd : ptr) (e : exn) :
  load_step W self = (lh, Ok hd) -> hd <> 0 ->
  c_size self = Raise e ->
  (op = Save -> given (to_file self) = true) ->
  perform W op self = (lh, Some e)
  /\ acquired lh = [(Document, hd)] /\ released lh = []
  /\ ~ balanced lh.
Proof.
  intros L N C G.
  destruct (load_step_resources W self _ _ L) as [Hr Ha].
  apply non_null_true in N. rewrite N in Ha.
  assert (R : _render W self = (lh, Raise e)).
  { rewrite render_exact, L, N, C. reflexivity. }
  repeat split; [| exact Ha | exact Hr |].
  - destruct op; unfold perform, outcome.
    + rewrite save_exact, (G eq_refl), R. destruct (to_file self); reflexivity.
    + rewrite tobytes_exact, R. reflexivity.
    + rewrite stride_exact, R. reflexivity.
  - apply (leaking_unbalanced self lh e). split; [exact C|].
    exists hd. repeat split; [now apply non_null_true | exact Ha | exact Hr].
Qed.

Lemma size_failure_leaks_handle_witness :
  perform (Sample.sample_world 1 0) Tobytes
    (mkSurface true (FromStr "icon.svg") None (PyInt 100) PyNaN)
  = ([Ev_rsvg_handle_new_from_file "icon.svg" 101],
     Some (ValueError "cannot convert float NaN to integer")).
Proof.
  apply (size_failure_leaks_handle (Sample.sample_world 1 0) Tobytes
           (mkSurface true (FromStr "icon.svg") None (PyInt 100) PyNaN)
           [Ev_rsvg_handle_new_from_file "icon.svg" 101] 101
           (ValueError "cannot convert float NaN to integer"));
    [reflexivity | discriminate | reflexivity | discriminate].
Defined.

(** ** Construction *)

Lemma bind_ok_inv {A B} (m : M A) (f : A -> M B) (l : log) (b : B) :
  bind m f = (l, Ok b) ->
  exists l1 a l2, m = (l1, Ok a) /\ f a = (l2, Ok b) /\ l = l1 ++ l2.
Proof.
  unfold bind. destruct m as [l1 [a|e]]; [|discriminate].
  destruct (f a) as [l2 r] eqn:E. intros X; inversion X; subst.
  exists l1, a, l2. auto.
Qed.



Lemma floats_log (a b : string) : fst (floats a b) = [].
Proof.
  unfold floats. destruct (PyNum.float a); [|reflexivity].
  destruct (PyNum.float b); reflexivity.
Qed.




Lemma construction_inversion (W : world) (from : source)
  (to : option UStr.t) (bg : bool) (w h : option num)
  (l : log) (self : SvgImageSurface) :
  __init__ W from to bg w h = (l, Ok self) ->
  save_bg self = bg /\ from_file self = from /\ to_file self = to
  /\ (exists l0,
        _get_svg_dimensions W from w h = (l0, Ok (width self, height self))
        /\ l = l0 ++ [EvLoadLibraries; EvDefineFunctionTypes])
  /\ load_libraries W = None /\ define_function_types W = None
  /\ (forall path, from = FromStr path ->
        PyStr.endswith path ".svg" = true
        /\ forall t, to = Some t -> PyStr.truthy t = true ->
                     PyStr.endswith t ".png" = true).
Proof.
  unfold __init__. intros X.
  apply bind_ok_inv in X as (l1 & [] & l2 & V & X & ->).
  apply bind_ok_inv in X as (l0 & [x y] & l3 & D & X & ->).
  apply bind_ok_inv in X as (l4 & [] & l5 & L & X & ->).
  apply bind_ok_inv in X as (l6 & [] & l7 & F & X & ->).
  inversion X; subst; clear X. cbn [fst snd save_bg from_file to_file width height].
  unfold _load_libraries, _define_function_types, bind, call in L, F.
  cbn in L, F.
  destruct (load_libraries W); [discriminate L|].
  destruct (define_function_types W); [discriminate F|].
  inversion L; inversion F; subst; clear L F.
  assert (E1 : l1 = []).
  { destruct from as [|path|g]; try (now inversion V).
    destruct (negb (PyStr.endswith path ".svg")); [discriminate V|].
    destruct to as [t|]; [|now inversion V].
    destruct (PyStr.truthy t && negb (PyStr.endswith t ".png"))%bool;
      [discriminate V | now inversion V]. }
  subst l1. repeat split; auto.
  - exists l0. split; [exact D | now rewrite app_nil_r].
  - subst from. destruct (PyStr.endswith path ".svg"); [reflexivity|discriminate V].
  - intros t -> T. subst from.
    destruct (negb (PyStr.endswith path ".svg")); [discriminate V|].
    rewrite T in V. destruct (PyStr.endswith t ".png"); [reflexivity|discriminate V].
Qed.

(** X11.  A surface that construction returns carries the arguments it
    was given and the dimensions the resolver returned; a file path among
    them ends in [.svg] and a non-empty destination beside it ends in
    [.png]; and the log is the resolver's followed by the loading of the
    libraries and the declaration of their functions, which both
    succeeded. *)
Theorem constructed_surface_invariant (W : world) (from : source)
  (to : option UStr.t) (bg : bool) (w h : option num)
  (l : log) (self : SvgImageSurface) :
  __init__ W from to bg w h = (l, Ok self) ->
  save_bg self = bg /\ from_file self = from /\ to_file self = to
  /\ (exists l0,
        _get_svg_dimensions W from w h = (l0, Ok (width self, height self))
        /\ l = l0 ++ [EvLoadLibraries; EvDefineFunctionTypes])
  /\ load_libraries W = None /\ define_function_types W = None
  /\ (forall path, from = FromStr path ->
        PyStr.endswith path ".svg" = true
        /\ forall t, to = Some t -> PyStr.truthy t = true ->
                     PyStr.endswith t ".png" = true).
Proof. apply construction_inversion. Qed.

Lemma constructed_surface_invariant_witness :
  PyStr.endswith "icon.svg" ".svg" = true
  /\ forall t, Some ("icon.png" : UStr.t) = Some t -> PyStr.truthy t = true ->
               PyStr.endswith t ".png" = true.
Proof.
  destruct (constructed_surface_invariant (Sample.sample_world 1 0)
              (FromStr "icon.svg") (Some ("icon.png" : UStr.t)) true
              (Some (PyInt 100)) (Some (PyInt 50))
              [EvLoadLibraries; EvDefineFunctionTypes] Sample.icon eq_refl)
    as (_ & _ & _ & _ & _ & _ & V).
  exact (V ("icon.svg" : UStr.t) eq_refl).
Defined.

(** X12.  An embedded document given without both dimensions is treated as
    the name of a file: construction opens the path made of the document's
    own bytes, and when no such file can be read it raises [SVGParseError]
    (the markup of the document is never searched, and no library is
    loaded). *)
Theorem embedded_source_needs_both_dimensions (W : world) (g : XmlGraphic.t)
  (to : option UStr.t) (bg : bool) (w h : option num) (t : string) :
  w = None \/ h = None ->
  open_read W (AsBytes (XmlGraphic.bytes g)) = RaisesIOError t ->
  __init__ W (FromXml g) to bg w h
  = ([EvOpen (AsBytes (XmlGraphic.bytes g))],
     Raise (SVGParseError ("Error reading SVG file: " ++ t)%string)).
Proof.
  intros Hm O.
  assert (D : _get_svg_dimensions W (FromXml g) w h
              = ([EvOpen (AsBytes (XmlGraphic.bytes g))],
                 Raise (SVGParseError ("Error reading SVG file: " ++ t)%string))).
  { unfold _get_svg_dimensions, read_source. rewrite O.
    destruct Hm as [-> | ->]; [|destruct w]; reflexivity. }
  unfold __init__. cbn [bind ret]. unfold bind at 1. rewrite D. reflexivity.
Qed.

Lemma embedded_source_needs_both_dimensions_witness :
  __init__ (Sample.sample_world 1 0) (FromXml Sample.embedded) None true
    (Some (PyInt 100)) None
  = ([EvOpen (AsBytes "<svg/>")],
     Raise (SVGParseError "Error reading SVG file: No such file or directory")).
Proof.
  apply (embedded_source_needs_both_dimensions (Sample.sample_world 1 0)
           Sample.embedded None true (Some (PyInt 100)) None
           "No such file or directory").
  - right. reflexivity.
  - reflexivity.
Defined.

(** X13.  A surface constructed from a file path, when saved, writes its
    PNG to the destination it was constructed with (to its UTF-8 bytes),
    and that path ends in [.png]. *)
Theorem validated_save_writes_png (W : world) (path : UStr.t)
  (to : option UStr.t) (bg : bool) (w h : option num)
  (l : log) (self : SvgImageSurface) :
  __init__ W (FromStr path) to bg w h = (l, Ok self) ->
  forall s out r,
    In (Ev_cairo_surface_write_to_png s out r) (fst (perform W Save self)) ->
    exists dest, to = Some dest /\ UStr.encode dest = Some out
                 /\ PyStr.endswith dest ".png" = true.
Proof.
  intros C s out r I.
  apply construction_inversion in C
    as (_ & _ & T & _ & _ & _ & V).
  pose proof (perform_log_as_requested W Save self) as F.
  rewrite Forall_forall in F.
  pose proof (F _ I) as (size & dest & _ & _ & D & U). cbn in D.
  rewrite T in D. exists dest. split; [exact D|]. split; [exact U|].
  destruct (V path eq_refl) as [_ P]. apply (P dest D).
  unfold perform, outcome in I. cbn [fst] in I.
  rewrite save_exact in I. unfold given in I. rewrite T, D in I.
  destruct (PyStr.truthy dest); [reflexivity | destruct I].
Qed.

Lemma validated_save_writes_png_witness :
  exists dest, Some ("icon.png" : UStr.t) = Some dest
               /\ UStr.encode dest = Some "icon.png"
               /\ PyStr.endswith dest ".png" = true.
Proof.
  apply (validated_save_writes_png (Sample.sample_world 1 0) "icon.svg"
           (Some ("icon.png" : UStr.t)) true (Some (PyInt 100)) (Some (PyInt 50))
           [EvLoadLibraries; EvDefineFunctionTypes] Sample.icon eq_refl
           202 "icon.png" 0).
  do 4 right. left. reflexivity.
Defined.

(** ** Numerals in the root tag *)

Lemma all_app (f : ascii -> bool) (a b : string) :
  PyStr.all f (a ++ b)%string = (PyStr.all f a && PyStr.all f b)%bool.
Proof.
  induction a as [|c a IH]; simpl; [reflexivity|].
  now rewrite IH, andb_assoc.
Qed.

Lemma all_impl (f g : ascii -> bool) (a : string) :
  (forall c, f c = true -> g c = true) ->
  PyStr.all f a = true -> PyStr.all g a = true.
Proof.
  intros H. induction a as [|c a IH]; simpl; [reflexivity|].
  intros A. apply andb_true_iff in A as [Fc A].
  now rewrite (H c Fc), (IH A).
Qed.

Lemma digit_or_dot_not_gt (c : ascii) :
  Re.digit_or_dot c = true -> Re.not_gt c = true.
Proof.
  unfold Re.not_gt. destruct (Ascii.eqb c ">") eqn:E; [|reflexivity].
  apply Ascii.eqb_eq in E. subst c. discriminate.
Qed.

(** A literal whose first character is outside a class does not occur
    earlier in a text that begins with a run of the class. *)
Lemma occurs_skips_run (p : ascii -> bool) (c0 : ascii) (q' run rest : string) :
  p c0 = false ->
  PyStr.all p run = true ->
  PyStr.occurs (String c0 q') (run ++ rest)%string
  = PyStr.occurs (String c0 q') rest.
Proof.
  intros P A. induction run as [|a run IH]; [reflexivity|].
  simpl in A. apply andb_true_iff in A as [Pa A].
  change ((String a run ++ rest)%string) with (String a (run ++ rest)%string).
  cbn [PyStr.occurs PyStr.startswith].
  destruct (Ascii.eqb a c0) eqn:E.
  - apply Ascii.eqb_eq in E. subst a. rewrite P in Pa. discriminate.
  - now apply IH.
Qed.

Lemma match_literal_self (name : string) (rest : Re.pattern) (st : Re.caps)
  (s : string) :
  Re.opened st = None ->
  Re.match_here (Re.lit name ++ rest) st (name ++ s)%string
  = Re.match_here rest st s.
Proof.
  intros O. induction name as [|c name IH]; [reflexivity|].
  simpl. rewrite Ascii.eqb_refl.
  assert (T : Re.take c st = st) by (unfold Re.take; now rewrite O).
  now rewrite T.
Qed.

Lemma take_run_open (run : string) (cl : list string) (acc : list ascii) :
  Re.take_run run (Re.mkCaps cl (Some acc))
  = Re.mkCaps cl (Some (rev (list_ascii_of_string run) ++ acc)).
Proof.
  revert acc. induction run as [|a run IH]; intros acc; [reflexivity|].
  simpl. unfold Re.take at 1. cbn [Re.opened Re.closed]. rewrite IH.
  now rewrite <- app_assoc.
Qed.

(** Greedy repetition takes the whole run when the rest of the pattern
    matches right after it. *)
Lemma greedy_takes_whole_run {R} (p : ascii -> bool)
  (k : Re.caps -> string -> option R) (c : ascii) (z : string) (r : R) :
  p c = false ->
  forall (run : string) (st : Re.caps),
    PyStr.all p run = true ->
    k (Re.take_run run st) (String c z) = Some r ->
    Re.greedy p k st (run ++ String c z)%string = Some r.
Proof.
  intros Pc. induction run as [|a run IH]; intros st A K.
  - simpl in *. now rewrite Pc.
  - simpl in A. apply andb_true_iff in A as [Pa A].
    simpl. rewrite Pa, (IH (Re.take a st) A K). reflexivity.
Qed.

Lemma append_assoc (a b c : string) :
  ((a ++ b) ++ c)%string = (a ++ (b ++ c))%string.
Proof. induction a as [|x a IH]; simpl; [reflexivity | now rewrite IH]. Qed.

(** The pattern of a quoted number after an attribute name. *)
Lemma number_after_name (name n rest : string) :
  n <> EmptyString ->
  PyStr.all Re.digit_or_dot n = true ->
  Re.match_here
    (Re.lit name ++ Re.Chr "=" :: Re.Chr Re.dquote
       :: Re.number_group ++ [Re.Chr Re.dquote])
    Re.no_caps (Re.attribute name n rest)
  = Some [n].
Proof.
  intros Nn An. unfold Re.attribute.
  rewrite match_literal_self by reflexivity.
  destruct n as [|d n]; [contradiction|].
  simpl in An. apply andb_true_iff in An as [Pd An].
  cbn. rewrite Pd.
  rewrite (greedy_takes_whole_run Re.digit_or_dot _ Re.dquote rest
             [String d n]); try reflexivity; try assumption.
  unfold Re.take at 1, Re.open_group. cbn [Re.opened Re.closed].
  rewrite take_run_open. cbn.
  rewrite rev_app_distr, rev_involutive. cbn.
  now rewrite string_of_list_ascii_of_string.
Qed.

(** The run that greedy repetition gives back before it finds the
    attribute [name] with a number [n]: the attribute is found when the
    text of the tag after its first character does not hold the name
    again. *)
Lemma greedy_finds_attribute (c0 : ascii) (name' n post body : string) :
  PyStr.all Re.not_gt (String c0 name') = true ->
  n <> EmptyString ->
  PyStr.all Re.digit_or_dot n = true ->
  PyStr.all Re.not_gt post = true ->
  PyStr.occurs (String c0 name' ++ "=")%string
    (name' ++ String "=" (String Re.dquote (n ++ String Re.dquote post)))%string
  = false ->
  Re.greedy Re.not_gt
    (Re.match_here
       (Re.lit (String c0 name' ++ "=")%string ++ Re.Chr Re.dquote
          :: Re.number_group ++ [Re.Chr Re.dquote]))
    Re.no_caps
    (Re.attribute (String c0 name') n (post ++ String ">" body)%string)
  = Some [n].
Proof.
  intros Aname Nn An Ap Occ.
  assert (Pc : Re.not_gt c0 = true /\ PyStr.all Re.not_gt name' = true).
  { simpl in Aname. now apply andb_true_iff in Aname. }
  destruct Pc as [Pc An'].
  unfold Re.attribute.
  change ((String c0 name' ++ String "=" (String Re.dquote
             (n ++ String Re.dquote (post ++ String ">" body))))%string)
    with (String c0 (name' ++ String "=" (String Re.dquote
             (n ++ String Re.dquote (post ++ String ">" body))))%string).
  cbn [Re.greedy]. rewrite Pc.
  replace (name' ++ String "=" (String Re.dquote
             (n ++ String Re.dquote (post ++ String ">" body))))%string
    with ((name' ++ String "=" (String Re.dquote (n ++ String Re.dquote post)))
            ++ String ">" body)%string.
  2:{ rewrite append_assoc. cbn. rewrite append_assoc. reflexivity. }
  rewrite greedy_nothing_over_run.
  - rewrite append_assoc. cbn [append]. rewrite append_assoc. cbn [append].
    pose proof (number_after_name (String c0 name') n
                  (post ++ String ">" body)%string Nn An) as K.
    unfold Re.attribute in K.
    assert (E : forall X,
               Re.lit (String c0 (name' ++ "=")%string) ++ X
               = Re.lit (String c0 name') ++ Re.Chr "=" :: X).
    { intros X. cbn. f_equal. clear. induction name' as [|a name' IH];
        [reflexivity | cbn; now rewrite IH]. }
    rewrite E. exact K.
  - rewrite all_app, An'. cbn. rewrite all_app.
    rewrite (all_impl _ _ n digit_or_dot_not_gt An). cbn. exact Ap.
  - reflexivity.
  - change (fun a : ascii => negb (Ascii.eqb a ">")) with Re.not_gt.
    change ((String c0 name' ++ "=")%string) with (String c0 (name' ++ "=")%string).
    cbn [PyStr.all]. rewrite Pc, all_app, An'. reflexivity.
  - exact Occ.
  - reflexivity.
  - change ((String c0 name' ++ "=")%string) with (String c0 (name' ++ "=")%string).
    cbn [PyStr.startswith].
    destruct (Ascii.eqb ">" c0) eqn:E; [|reflexivity].
    apply Ascii.eqb_eq in E. subst c0. discriminate Pc.
Qed.

Lemma digit_or_dot_all_not_gt (n : string) :
  PyStr.all Re.digit_or_dot n = true -> PyStr.all Re.not_gt n = true.
Proof. apply all_impl. exact digit_or_dot_not_gt. Qed.

(** The width pattern on a tag that holds width and height as numbers. *)
Lemma width_found (pre attrs n1 n2 post body : string) :
  PyStr.occurs "<svg" pre = false ->
  PyStr.all Re.not_gt attrs = true ->
  PyStr.all Re.not_gt post = true ->
  PyStr.occurs "width=" post = false ->
  n1 <> EmptyString -> PyStr.all Re.digit_or_dot n1 = true ->
  PyStr.all Re.digit_or_dot n2 = true ->
  Re.search Re.width_re
    (pre ++ "<svg" ++ attrs
       ++ Re.attribute "width" n1
            (" " ++ Re.attribute "height" n2 (post ++ ">" ++ body)))%string
  = Some [n1].
Proof.
  intros O A P Nw N1 D1 D2.
  apply (search_root_tag (skipn 5 Re.width_re) pre attrs _ [n1] O A).
  replace (" " ++ Re.attribute "height" n2 (post ++ ">" ++ body))%string
    with ((" height=" ++ String Re.dquote (n2 ++ String Re.dquote post))
            ++ String ">" body)%string
    by (unfold Re.attribute; cbn; now rewrite append_assoc).
  apply (greedy_finds_attribute "w" "idth" n1
           (" height=" ++ String Re.dquote (n2 ++ String Re.dquote post))%string
           body); try assumption; try reflexivity.
  - cbn. rewrite all_app, (digit_or_dot_all_not_gt n2 D2). cbn. exact P.
  - cbn. rewrite (occurs_skips_run Re.digit_or_dot "w") by (reflexivity || assumption).
    cbn. rewrite (occurs_skips_run Re.digit_or_dot "w") by (reflexivity || assumption).
    cbn. exact Nw.
Qed.

(** The height pattern on the same tag. *)
Lemma height_found (pre attrs n1 n2 post body : string) :
  PyStr.occurs "<svg" pre = false ->
  PyStr.all Re.not_gt attrs = true ->
  PyStr.all Re.not_gt post = true ->
  PyStr.occurs "height=" post = false ->
  PyStr.all Re.digit_or_dot n1 = true ->
  n2 <> EmptyString -> PyStr.all Re.digit_or_dot n2 = true ->
  Re.search Re.height_re
    (pre ++ "<svg" ++ attrs
       ++ Re.attribute "width" n1
            (" " ++ Re.attribute "height" n2 (post ++ ">" ++ body)))%string
  = Some [n2].
Proof.
  intros O A P Nh D1 N2 D2.
  apply (search_root_tag (skipn 5 Re.height_re) pre attrs _ [n2] O A).
  unfold Re.attribute at 1.
  apply (greedy_passes_run Re.not_gt _ Re.no_caps
           ("width=" ++ String Re.dquote EmptyString)%string
           (n1 ++ String Re.dquote
                    (" " ++ Re.attribute "height" n2 (post ++ ">" ++ body)))%string);
    [reflexivity | reflexivity |].
  apply (greedy_passes_run Re.not_gt _ Re.no_caps n1);
    [now apply digit_or_dot_all_not_gt | reflexivity |].
  apply (greedy_passes_run Re.not_gt _ Re.no_caps
           (String Re.dquote " ")
           (Re.attribute "height" n2 (post ++ ">" ++ body))%string);
    [reflexivity | reflexivity |].
  apply (greedy_finds_attribute "h" "eight" n2 post body);
    try assumption; try reflexivity.
  cbn. rewrite (occurs_skips_run Re.digit_or_dot "h") by (reflexivity || assumption).
  cbn. exact Nh.
Qed.

(** X14.  A file resolves to what [float(N), float(M)] gives, when the
    request gives no size, if its text is made of: any text in which
    [<svg] does not occur; [<svg]; any text without [>]; [width="N"], one
    space, [height="M"] (N and M non-empty runs of digits and dots); any
    text without [>] in which neither [width=] nor [height=] occurs; [>];
    and any text.  The floats are those nearest to the numerals (the
    positive infinity beyond the largest); when N or M is not a numeral
    [float] accepts, the [ValueError] of [float] comes out.  A viewBox or
    a style in the tag changes nothing. *)
Theorem numeric_attributes_resolve (W : world) (path : UStr.t)
  (pre attrs n1 n2 post body : string) :
  PyStr.occurs "<svg" pre = false ->
  PyStr.all Re.not_gt attrs = true ->
  PyStr.all Re.not_gt post = true ->
  PyStr.occurs "width=" post = false ->
  PyStr.occurs "height=" post = false ->
  n1 <> EmptyString -> PyStr.all Re.digit_or_dot n1 = true ->
  n2 <> EmptyString -> PyStr.all Re.digit_or_dot n2 = true ->
  open_read W (AsStr path)
  = Text (pre ++ "<svg" ++ attrs
            ++ Re.attribute "width" n1
                 (" " ++ Re.attribute "height" n2 (post ++ ">" ++ body)))%string ->
  _get_svg_dimensions W (FromStr path) None None
  = ([EvOpen (AsStr path)], snd (floats n1 n2)).
Proof.
  intros O A P Nw Nh N1 D1 N2 D2 R.
  unfold _get_svg_dimensions, read_source. rewrite R.
  unfold bind, call, parse_dimensions.
  rewrite (width_found pre attrs n1 n2 post body) by assumption.
  rewrite (height_found pre attrs n1 n2 post body) by assumption.
  cbn [Re.group Nat.sub nth].
  pose proof (floats_log n1 n2) as L.
  destruct (floats n1 n2) as [l r]. cbn in L. subst l. reflexivity.
Qed.

Lemma numeric_attributes_resolve_witness :
  _get_svg_dimensions
    (Sample.with_file "icon.svg"
       (Re.doc "<?xml version='1.0'?><svg id='a' width='12.5' height='0.1' viewBox='0 0 1 1'><g/></svg>")
       (Sample.sample_world 1 0))
    (FromStr "icon.svg") None None
  = ([EvOpen (AsStr "icon.svg")],
     Ok (PyFloat (25 # 2), PyFloat (3602879701896397 # 36028797018963968))).
Proof.
  apply (numeric_attributes_resolve _ "icon.svg"
           (Re.doc "<?xml version='1.0'?>") (Re.doc " id='a' ") "12.5" "0.1"
           (Re.doc " viewBox='0 0 1 1'") "<g/></svg>");
    try reflexivity; discriminate.
Defined.

(** C9.  With only the width or only the height given, the given value
    takes no part and both dimensions come from the markup that is read.
    When the text read has [width="N" height="M"] in its first svg tag
    (N and M non-empty runs of digits and dots which [float] accepts, no
    attribute after them named width or height), the result is
    [float(N), float(M)] whatever value was given; and when the text read
    is recognised by none of the patterns, the request fails with
    [SVGParseError] although one dimension was given.  For every source
    the result is that of the request that gives neither. *)
Theorem lone_dimension_discarded (W : world) (from : source) (x : num)
  (l : log) (content : string) :
  read_source W from = (l, Ok content) ->
  (forall pre attrs n1 n2 post body a b,
     content
     = (pre ++ "<svg" ++ attrs
          ++ Re.attribute "width" n1
               (" " ++ Re.attribute "height" n2 (post ++ ">" ++ body)))%string ->
     PyStr.occurs "<svg" pre = false ->
     PyStr.all Re.not_gt attrs = true ->
     PyStr.all Re.not_gt post = true ->
     PyStr.occurs "width=" post = false ->
     PyStr.occurs "height=" post = false ->
     n1 <> EmptyString -> PyStr.all Re.digit_or_dot n1 = true ->
     n2 <> EmptyString -> PyStr.all Re.digit_or_dot n2 = true ->
     PyNum.float n1 = Some a -> PyNum.float n2 = Some b ->
     _get_svg_dimensions W from (Some x) None = (l, Ok (a, b))
     /\ _get_svg_dimensions W from None (Some x) = (l, Ok (a, b)))
  /\ (recognized content = false ->
      _get_svg_dimensions W from (Some x) None = (l, Raise undetermined)
      /\ _get_svg_dimensions W from None (Some x) = (l, Raise undetermined))
  /\ _get_svg_dimensions W from (Some x) None
     = _get_svg_dimensions W from None None
  /\ _get_svg_dimensions W from None (Some x)
     = _get_svg_dimensions W from None None.
Proof.
  intros R. split; [|split; [|split; reflexivity]].
  - intros pre attrs n1 n2 post body a b -> O A P Nw Nh N1 D1 N2 D2 Fa Fb.
    assert (E : parse_dimensions
                  (pre ++ "<svg" ++ attrs
                     ++ Re.attribute "width" n1
                          (" " ++ Re.attribute "height" n2 (post ++ ">" ++ body)))%string
                = ([], Ok (a, b))).
    { unfold parse_dimensions.
      rewrite (width_found pre attrs n1 n2 post body) by assumption.
      rewrite (height_found pre attrs n1 n2 post body) by assumption.
      cbn [Re.group Nat.sub nth]. unfold floats. rewrite Fa, Fb. reflexivity. }
    split; unfold _get_svg_dimensions; (eapply bind_log; [exact R | exact E]).
  - intros U.
    split; unfold _get_svg_dimensions;
      (eapply bind_log; [exact R | now apply parse_unrecognized]).
Qed.

(** A request for a width of 640 on a document of 100 by 50 resolves to
    (100.0, 50.0); on a document without dimensions it fails. *)
Lemma lone_dimension_discarded_witness :
  (_get_svg_dimensions
     (Sample.with_file "icon.svg"
        (Re.doc "<svg id='a' width='100' height='50' fill='red'><g/></svg>")
        (Sample.sample_world 1 0))
     (FromStr "icon.svg") (Some (PyInt 640)) None
   = ([EvOpen (AsStr "icon.svg")], Ok (PyFloat 100, PyFloat 50))
   /\ _get_svg_dimensions
        (Sample.with_file "icon.svg"
           (Re.doc "<svg id='a' width='100' height='50' fill='red'><g/></svg>")
           (Sample.sample_world 1 0))
        (FromStr "icon.svg") None (Some (PyInt 640))
      = ([EvOpen (AsStr "icon.svg")], Ok (PyFloat 100, PyFloat 50)))
  /\ _get_svg_dimensions
       (Sample.with_file "icon.svg" Sample.bare_document (Sample.sample_world 1 0))
       (FromStr "icon.svg") (Some (PyInt 640)) None
     = ([EvOpen (AsStr "icon.svg")], Raise undetermined).
Proof.
  split.
  - apply (proj1 (lone_dimension_discarded
                    (Sample.with_file "icon.svg"
                       (Re.doc "<svg id='a' width='100' height='50' fill='red'><g/></svg>")
                       (Sample.sample_world 1 0))
                    (FromStr "icon.svg") (PyInt 640)
                    [EvOpen (AsStr "icon.svg")]
                    (Re.doc "<svg id='a' width='100' height='50' fill='red'><g/></svg>")
                    eq_refl)
             EmptyString (Re.doc " id='a' ") "100" "50" (Re.doc " fill='red'")
             "<g/></svg>" (PyFloat 100) (PyFloat 50));
      try reflexivity; discriminate.
  - apply (proj1 (proj2 (lone_dimension_discarded
                           (Sample.with_file "icon.svg" Sample.bare_document
                              (Sample.sample_world 1 0))
                           (FromStr "icon.svg") (PyInt 640)
                           [EvOpen (AsStr "icon.svg")] Sample.bare_document
                           eq_refl))).
    vm_compute. reflexivity.
Defined.

(** ** What the resolver reads and what it refuses *)

Lemma digit_val_nonneg (a : ascii) : Re.is_digit a = true -> 0 <= digit_val a.
Proof.
  unfold Re.is_digit, digit_val. intros H.
  apply andb_true_iff in H as [H _]. apply Nat.leb_le in H. lia.
Qed.

Lemma scan_nonneg (s : string) :
  forall (m : Z) (dot : bool) (frac digits : nat) (r : Z) (k : nat),
    0 <= m -> scan s m dot frac digits = Some (r, k) -> 0 <= r.
Proof.
  induction s as [|a s IH]; intros m dot frac digits r k M S; cbn [scan] in S.
  - destruct digits; [discriminate|]. now inversion S; subst.
  - destruct (Re.is_digit a) eqn:D.
    + apply IH in S; [exact S|]. pose proof (digit_val_nonneg a D). lia.
    + destruct (Ascii.eqb a "."); [|discriminate].
      destruct dot; [discriminate|]. now apply IH in S.
Qed.

(** What [float] makes of a numeral is a float that is zero or more, or
    the positive infinity. *)
Lemma round_binary64_nonneg (n d : Z) :
  0 <= n -> 0 < d ->
  match round_binary64 n d with
  | PyFloat q => (0 <= q)%Q
  | PyInf negative => negative = false
  | _ => False
  end.
Proof.
  intros Hn Hd. unfold round_binary64.
  destruct (n =? 0); [cbn; unfold Qle; cbn; lia|].
  set (e := if at_least_pow2 n d (Z.log2 n - Z.log2 d) then _ else _).
  set (t := Z.max (e - 52) (- 1074)).
  set (num_ := if 0 <=? t then n else n * 2 ^ (- t)).
  set (den := if 0 <=? t then d * 2 ^ t else d).
  assert (Hnum : 0 <= num_).
  { unfold num_. destruct (0 <=? t); [exact Hn|].
    apply Z.mul_nonneg_nonneg; [exact Hn | apply Z.pow_nonneg; lia]. }
  assert (Hden : 0 < den).
  { unfold den. destruct (0 <=? t) eqn:T; [|exact Hd].
    apply Z.leb_le in T. apply Z.mul_pos_pos; [exact Hd|].
    apply Z.pow_pos_nonneg; lia. }
  assert (Hq : 0 <= num_ / den) by (apply Z.div_pos; assumption).
  set (mant := if 2 * (num_ mod den) <? den then _ else _).
  assert (Hm : 0 <= mant).
  { unfold mant. destruct (2 * (num_ mod den) <? den); [exact Hq|].
    destruct (den <? 2 * (num_ mod den)); [lia|].
    destruct (Z.even (num_ / den)); lia. }
  clearbody mant.
  destruct (0 <=? t) eqn:T.
  - destruct (2 ^ 1024 <=? mant * 2 ^ t); [reflexivity|].
    apply Z.leb_le in T. unfold Qle. cbn [Qnum Qden].
    assert (0 <= 2 ^ t) by (apply Z.pow_nonneg; lia). nia.
  - apply (Qle_trans 0 (mant # Z.to_pos (2 ^ (- t)))).
    + unfold Qle. cbn [Qnum Qden]. lia.
    + apply Qle_lteq. right.
      exact (Qeq_sym _ _ (Qred_correct (mant # Z.to_pos (2 ^ (- t))))).
Qed.

Lemma float_nonneg (s : string) (x : num) :
  PyNum.float s = Some x ->
  (exists q, x = PyFloat q /\ (0 <= q)%Q) \/ x = PyInf false.
Proof.
  unfold PyNum.float. destruct (scan s 0 false 0 0) as [[m k]|] eqn:S;
    [|discriminate].
  intros X; inversion X; subst; clear X.
  apply scan_nonneg in S; [|lia].
  assert (D : 0 < 10 ^ Z.of_nat k) by (apply Z.pow_pos_nonneg; lia).
  pose proof (round_binary64_nonneg m (10 ^ Z.of_nat k) S D) as H.
  destruct (round_binary64 m (10 ^ Z.of_nat k)) as [z|q|n|];
    [destruct H | left; eauto | right; now subst | destruct H].
Qed.

Lemma floats_ok (a b : string) (x y : num) :
  floats a b = ([], Ok (x, y)) ->
  PyNum.float a = Some x /\ PyNum.float b = Some y.
Proof.
  unfold floats. destruct (PyNum.float a) as [qa|] eqn:A; [|discriminate].
  destruct (PyNum.float b) as [qb|] eqn:B; [|discriminate].
  intros X; inversion X; subst. auto.
Qed.


(** What [parse_dimensions] returns comes from [float] on two groups. *)
Lemma parse_dimensions_ok (content : string) (x y : num) :
  snd (parse_dimensions content) = Ok (x, y) ->
  exists a b, PyNum.float a = Some x /\ PyNum.float b = Some y.
Proof.
  unfold parse_dimensions. intros X.
  assert (F : forall a b, snd (floats a b) = Ok (x, y) ->
                exists a b, PyNum.float a = Some x /\ PyNum.float b = Some y).
  { intros a b E. pose proof (floats_log a b) as L.
    destruct (floats a b) as [l r] eqn:G. cbn in L, E. subst.
    apply floats_ok in G as (? & ?). eauto. }
  destruct (Re.search Re.width_re content), (Re.search Re.height_re content),
    (Re.search Re.viewbox_re content), (Re.search Re.style_re content);
    try (now apply F in X); discriminate X.
Qed.


(** X15.  Dimensions that come from the markup are never negative and
    never NaN.  With the width or the height of the request missing, each
    of the two values the resolver returns is a finite float, zero or
    more, of which [int] is an integer, zero or more; or it is the
    positive infinity (the numeral was beyond the largest float), of
    which [int] raises [OverflowError].  (Zero is possible: the patterns
    take any digits.) *)
Theorem parsed_dimensions_nonnegative (W : world) (from : source)
  (w h : option num) (l : log) (x y : num) :
  w = None \/ h = None ->
  _get_svg_dimensions W from w h = (l, Ok (x, y)) ->
  forall d, d = x \/ d = y ->
    (exists q z, d = PyFloat q /\ (0 <= q)%Q /\ PyNum.int d = Ok z /\ 0 <= z)
    \/ (d = PyInf false /\ PyNum.int d = Raise OverflowError).
Proof.
  intros Hm X.
  assert (G : _get_svg_dimensions W from w h
              = bind (read_source W from) parse_dimensions).
  { destruct Hm as [-> | ->]; [|destruct w]; reflexivity. }
  rewrite G in X. apply bind_ok_inv in X as (l1 & content & l2 & _ & P & _).
  assert (P' : snd (parse_dimensions content) = Ok (x, y)) by now rewrite P.
  apply parse_dimensions_ok in P' as (a & b & Fa & Fb).
  assert (K : forall s d, PyNum.float s = Some d ->
            (exists q z, d = PyFloat q /\ (0 <= q)%Q /\ PyNum.int d = Ok z /\ 0 <= z)
            \/ (d = PyInf false /\ PyNum.int d = Raise OverflowError)).
  { intros s d F. apply float_nonneg in F as [(q & -> & Q)| ->].
    - left. exists q, (Z.quot (Qnum q) (Zpos (Qden q))).
      repeat split; [exact Q|].
      apply Z.quot_pos; [|lia]. unfold Qle in Q. cbn in Q. lia.
    - right. split; reflexivity. }
  intros d [-> | ->]; [exact (K a _ Fa) | exact (K b _ Fb)].
Qed.

(** A height of 1.5 and a width of 310 nines. *)
Lemma parsed_dimensions_nonnegative_witness :
  (exists q z, PyFloat (3 # 2) = PyFloat q /\ (0 <= q)%Q
               /\ PyNum.int (PyFloat (3 # 2)) = Ok z /\ 0 <= z)
  \/ (PyFloat (3 # 2) = PyInf false
      /\ PyNum.int (PyFloat (3 # 2)) = Raise OverflowError).
Proof.
  apply (parsed_dimensions_nonnegative
           (Sample.with_file "icon.svg"
              (Re.attribute "<svg width" (String.concat EmptyString (repeat "9" 310))
                 (Re.doc " height='1.5'>"))
              (Sample.sample_world 1 0))
           (FromStr "icon.svg") None None [EvOpen (AsStr "icon.svg")]
           (PyInf false) (PyFloat (3 # 2))).
  - left. reflexivity.
  - vm_compute. reflexivity.
  - right. reflexivity.
Defined.



Lemma search_needs_opener (rest : Re.pattern) (s : string) :
  PyStr.occurs "<svg" s = false ->
  Re.search (Re.lit "<svg" ++ rest) s = None.
Proof.
  induction s as [|a s IH]; intros O.
  - reflexivity.
  - cbn [PyStr.occurs] in O.
    destruct (PyStr.startswith (String a s) "<svg") eqn:S; [discriminate|].
    cbn [Re.search].
    rewrite (match_literal_mismatch "<svg" rest Re.no_caps (String a s) S).
    now apply IH.
Qed.

(** X17.  A text in which [<svg] does not occur (the tag in capitals, for
    one) is recognised by none of the patterns, so a request without both
    dimensions on such a file raises [SVGParseError]. *)
Theorem document_without_opener_fails (W : world) (from : source)
  (w h : option num) (l : log) (content : string) :
  PyStr.occurs "<svg" content = false ->
  w = None \/ h = None ->
  read_source W from = (l, Ok content) ->
  recognized content = false
  /\ _get_svg_dimensions W from w h = (l, Raise undetermined).
Proof.
  intros O Hm R.
  assert (U : recognized content = false).
  { unfold recognized.
    change Re.width_re with (Re.lit "<svg" ++ skipn 4 Re.width_re).
    change Re.height_re with (Re.lit "<svg" ++ skipn 4 Re.height_re).
    change Re.viewbox_re with (Re.lit "<svg" ++ skipn 4 Re.viewbox_re).
    change Re.style_re with (Re.lit "<svg" ++ skipn 4 Re.style_re).
    now rewrite !search_needs_opener. }
  split; [exact U|].
  assert (G : _get_svg_dimensions W from w h
              = bind (read_source W from) parse_dimensions).
  { destruct Hm as [-> | ->]; [|destruct w]; reflexivity. }
  rewrite G. eapply bind_log; [exact R | now apply parse_unrecognized].
Qed.

Lemma document_without_opener_fails_witness :
  _get_svg_dimensions
    (Sample.with_file "icon.svg" (Re.doc "<SVG width='100' height='50'></SVG>")
       (Sample.sample_world 1 0))
    (FromStr "icon.svg") None None
  = ([EvOpen (AsStr "icon.svg")], Raise undetermined).
Proof.
  apply (document_without_opener_fails
           (Sample.with_file "icon.svg"
              (Re.doc "<SVG width='100' height='50'></SVG>")
              (Sample.sample_world 1 0))
           (FromStr "icon.svg") None None [EvOpen (AsStr "icon.svg")]
           (Re.doc "<SVG width='100' height='50'></SVG>"));
    [reflexivity | left; reflexivity | reflexivity].
Defined.

(** ** The end of the opening tag *)

Lemma greedy_cut {R} (p : ascii -> bool) (k : Re.caps -> string -> option R)
  (body : string) :
  p ">"%char = false ->
  (forall st x, k st (x ++ String ">" body)%string = k st x) ->
  forall x st,
    Re.greedy p k st (x ++ String ">" body)%string = Re.greedy p k st x.
Proof.
  intros P K. induction x as [|a x IH]; intros st.
  - cbn [append Re.greedy]. rewrite P. apply (K st EmptyString).
  - change ((String a x ++ String ">" body)%string)
      with (String a (x ++ String ">" body)%string).
    cbn [Re.greedy]. rewrite IH.
    change (String a (x ++ String ">" body)%string)
      with ((String a x ++ String ">" body)%string).
    rewrite K. reflexivity.
Qed.

(** A pattern none of whose atoms accepts [>] matches the same way
    whether or not the text goes on with [>]. *)
Lemma match_cut (body : string) :
  forall pat, Re.rejects ">" pat = true ->
    forall st x,
      Re.match_here pat st (x ++ String ">" body)%string
      = Re.match_here pat st x.
Proof.
  induction pat as [|at0 pat IH]; intros Rj st x; [reflexivity|].
  destruct at0 as [c|p|p|p| |]; cbn [Re.rejects] in Rj;
    try (apply andb_true_iff in Rj as [Rc Rj]; apply negb_true_iff in Rc).
  - destruct x as [|a x]; cbn [append Re.match_here].
    + now rewrite Rc.
    + destruct (Ascii.eqb a c); [now apply IH | reflexivity].
  - destruct x as [|a x]; cbn [append Re.match_here].
    + now rewrite Rc.
    + destruct (p a); [now apply IH | reflexivity].
  - cbn [Re.match_here]. apply greedy_cut; [exact Rc|].
    intros st' x'. now apply IH.
  - destruct x as [|a x]; cbn [append Re.match_here].
    + now rewrite Rc.
    + destruct (p a); [|reflexivity].
      apply greedy_cut; [exact Rc|]. intros st' x'. now apply IH.
  - cbn [Re.match_here]. now apply IH.
  - cbn [Re.match_here]. now apply IH.
Qed.

Lemma search_cut (rest : Re.pattern) (body : string) :
  Re.rejects ">" (Re.lit "<svg" ++ rest) = true ->
  PyStr.occurs "<svg" body = false ->
  forall x,
    Re.search (Re.lit "<svg" ++ rest) (x ++ String ">" body)%string
    = Re.search (Re.lit "<svg" ++ rest) x.
Proof.
  intros Rj O. induction x as [|a x IH].
  - rewrite search_needs_opener; [reflexivity|]. cbn. exact O.
  - change ((String a x ++ String ">" body)%string)
      with (String a (x ++ String ">" body)%string).
    cbn [Re.search].
    change (String a (x ++ String ">" body)%string)
      with ((String a x ++ String ">" body)%string).
    rewrite (match_cut body _ Rj). rewrite IH. reflexivity.
Qed.

(** X18.  For a text [x] followed by [>] and by a body in which [<svg]
    does not occur, the width and the height pattern find in the whole
    what they find in [x] alone: nothing after that [>] is read.  (A
    body that holds a nested [<svg] is read: see
    [nested_svg_attributes_taken].) *)
Theorem child_attributes_ignored (x body : string) :
  PyStr.occurs "<svg" body = false ->
  Re.search Re.width_re (x ++ ">" ++ body)%string = Re.search Re.width_re x
  /\ Re.search Re.height_re (x ++ ">" ++ body)%string = Re.search Re.height_re x.
Proof.
  intros O. split.
  - apply (search_cut (skipn 4 Re.width_re) body); [reflexivity | exact O].
  - apply (search_cut (skipn 4 Re.height_re) body); [reflexivity | exact O].
Qed.

(** The width and height of a nested svg element are taken for those of
    the document. *)
Example nested_svg_attributes_taken :
  Re.search Re.width_re (Re.doc "<svg id='a'><svg width='3' height='4'/></svg>")
  = Some ["3"]
  /\ _get_svg_dimensions
       (Sample.with_file "icon.svg"
          (Re.doc "<svg id='a'><svg width='3' height='4'/></svg>")
          (Sample.sample_world 1 0))
       (FromStr "icon.svg") None None
     = ([EvOpen (AsStr "icon.svg")], Ok (PyFloat 3, PyFloat 4)).
Proof. split; vm_compute; reflexivity. Qed.

Lemma child_attributes_ignored_witness :
  Re.search Re.width_re (Re.doc "<svg id='a'><rect width='3' height='4'/></svg>")
  = None.
Proof.
  apply (proj1 (child_attributes_ignored (Re.doc "<svg id='a'")
                  (Re.doc "<rect width='3' height='4'/></svg>") eq_refl)).
Defined.



(** The style must end right after the height: without the last
    semicolon, or with a declaration after it, the pattern finds nothing. *)
Example style_must_end_with_height :
  Re.search Re.style_re (Re.doc "<svg style='width: 64px; height: 32px'>") = None
  /\ Re.search Re.style_re
       (Re.doc "<svg style='width: 64px; height: 32px; fill: red;'>") = None
  /\ Re.search Re.style_re
       (Re.doc "<svg style='fill: red; width:64px; top: 0; height:32px;'>")
     = Some ["64"; "32"].
Proof. repeat split; reflexivity. Qed.

(** ** [_cleanup_resources] *)

(** X20.  [_cleanup_resources] never raises and acquires nothing; it
    skips a null pointer and releases the others once each, the context
    first, then the surface, then the handle; given three null pointers
    it makes no call. *)
Theorem cleanup_releases_what_is_held (h c s : ptr) :
  snd (_cleanup_resources h c s) = Ok tt
  /\ acquired (fst (_cleanup_resources h c s)) = []
  /\ released (fst (_cleanup_resources h c s)) = rev (held h c s)
  /\ List.length (fst (_cleanup_resources h c s)) = List.length (held h c s)
  /\ fst (_cleanup_resources 0 0 0) = [].
Proof.
  rewrite cleanup_exact. unfold cleanup_calls, held.
  destruct (non_null h), (non_null c), (non_null s); repeat split.
Qed.

(** ** Numbers in the viewBox *)

Lemma space_not_quote (a : ascii) : Re.is_space a = true -> Re.not_quote a = true.
Proof.
  unfold Re.not_quote. destruct (Ascii.eqb a Re.dquote) eqn:E; [|reflexivity].
  apply Ascii.eqb_eq in E. subst a. discriminate.
Qed.

Lemma space_not_gt (a : ascii) : Re.is_space a = true -> Re.not_gt a = true.
Proof.
  unfold Re.not_gt. destruct (Ascii.eqb a ">") eqn:E; [|reflexivity].
  apply Ascii.eqb_eq in E. subst a. discriminate.
Qed.

Lemma digit_or_dot_not_quote (a : ascii) :
  Re.digit_or_dot a = true -> Re.not_quote a = true.
Proof.
  unfold Re.not_quote. destruct (Ascii.eqb a Re.dquote) eqn:E; [|reflexivity].
  apply Ascii.eqb_eq in E. subst a. discriminate.
Qed.

Lemma is_digit_range (a : ascii) :
  Re.is_digit a = true -> (48 <= nat_of_ascii a <= 57)%nat.
Proof.
  unfold Re.is_digit. intros H. apply andb_true_iff in H as [H1 H2].
  apply Nat.leb_le in H1, H2. lia.
Qed.

Lemma is_space_cases (a : ascii) :
  Re.is_space a = true ->
  (nat_of_ascii a <= 32 \/ nat_of_ascii a = 133 \/ nat_of_ascii a = 160)%nat.
Proof.
  unfold Re.is_space. intros H.
  repeat (apply orb_true_iff in H; destruct H as [H|H]).
  - apply andb_true_iff in H as [_ H]. apply Nat.leb_le in H. lia.
  - apply andb_true_iff in H as [_ H]. apply Nat.leb_le in H. lia.
  - apply Nat.eqb_eq in H. lia.
  - apply Nat.eqb_eq in H. lia.
Qed.

Lemma digit_or_dot_not_space (a : ascii) :
  Re.digit_or_dot a = true -> Re.is_space a = false.
Proof.
  intros D. destruct (Re.is_space a) eqn:S; [|reflexivity].
  apply is_space_cases in S. unfold Re.digit_or_dot in D.
  apply orb_true_iff in D as [D|D].
  - apply is_digit_range in D. lia.
  - apply Ascii.eqb_eq in D. subst a. cbn in S. lia.
Qed.

Lemma space_not_digit_or_dot (a : ascii) :
  Re.is_space a = true -> Re.digit_or_dot a = false.
Proof.
  intros S. destruct (Re.digit_or_dot a) eqn:D; [|reflexivity].
  apply digit_or_dot_not_space in D. rewrite D in S. discriminate.
Qed.

(** Greedy repetition finds nothing over a run that ends at [c] when the
    rest of the pattern fails, with any captures, on every text that
    begins with a character of the class or with [c]. *)
Lemma greedy_nothing_when_rest_fails {R} (p : ascii -> bool)
  (k : Re.caps -> string -> option R) (c : ascii) (z : string) :
  p c = false ->
  (forall st a s, p a = true \/ a = c -> k st (String a s) = None) ->
  forall run st,
    PyStr.all p run = true ->
    Re.greedy p k st (run ++ String c z)%string = None.
Proof.
  intros Pc K. induction run as [|a run IH]; intros st A.
  - cbn [append Re.greedy]. rewrite Pc. apply K. now right.
  - simpl in A. apply andb_true_iff in A as [Pa A].
    change ((String a run ++ String c z)%string)
      with (String a (run ++ String c z)%string).
    cbn [Re.greedy]. rewrite Pa, (IH _ A). apply K. now left.
Qed.

(** Nothing is found while a run is given back when the rest of the
    pattern fails on every text that begins with a character of the
    run. *)
Lemma give_back_nothing {R} (p : ascii -> bool)
  (k : Re.caps -> string -> option R) (st : Re.caps) (tail : string) :
  (forall a s, p a = true -> k st (String a s) = None) ->
  forall run, PyStr.all p run = true -> Re.give_back k st run tail = None.
Proof.
  intros K. induction run as [|a run IH]; intros A; [reflexivity|].
  simpl in A. apply andb_true_iff in A as [Pa A].
  cbn [Re.give_back]. rewrite (IH A). cbn [append]. now apply K.
Qed.

Lemma two_numbers_need_space (st : Re.caps) (a : ascii) (s : string) :
  Re.is_space a = false -> Re.match_here Re.two_numbers st (String a s) = None.
Proof. intros S. cbn. now rewrite S. Qed.

Lemma two_numbers_match (s1 s2 : ascii) (n m rest : string) :
  Re.is_space s1 = true -> Re.is_space s2 = true ->
  n <> EmptyString -> PyStr.all Re.digit_or_dot n = true ->
  m <> EmptyString -> PyStr.all Re.digit_or_dot m = true ->
  Re.match_here Re.two_numbers Re.no_caps
    (String s1 (n ++ String s2 (m ++ String Re.dquote rest)))%string
  = Some [n; m].
Proof.
  intros S1 S2 Nn An Nm Am.
  destruct n as [|d n]; [contradiction|]. destruct m as [|e m]; [contradiction|].
  simpl in An, Am. apply andb_true_iff in An as [Pd An].
  apply andb_true_iff in Am as [Pe Am].
  cbn [Re.two_numbers Re.match_here append]. rewrite S1, Pd.
  apply greedy_takes_whole_run;
    [now apply space_not_digit_or_dot | exact An |].
  change (Re.take d (Re.open_group (Re.take s1 Re.no_caps)))
    with (Re.mkCaps [] (Some [d])).
  rewrite take_run_open.
  cbn [Re.match_here Re.close_group Re.opened Re.closed Re.take Re.open_group].
  rewrite S2, Pe.
  apply greedy_takes_whole_run; [reflexivity | exact Am |].
  rewrite take_run_open.
  cbn [Re.match_here Re.close_group Re.opened Re.closed Re.take Re.groups].
  rewrite Ascii.eqb_refl.
  cbn [Re.match_here Re.groups Re.closed rev app].
  rewrite !rev_app_distr, !rev_involutive. cbn [rev app].
  cbn [string_of_list_ascii].
  now rewrite !string_of_list_ascii_of_string.
Qed.

(** At the second white space the pattern fails: after the number that
    follows it comes the quote, not white space. *)
Lemma two_numbers_fail_at_last (s2 : ascii) (m rest : string) (st : Re.caps) :
  PyStr.all Re.digit_or_dot m = true ->
  Re.match_here Re.two_numbers st (String s2 (m ++ String Re.dquote rest))%string
  = None.
Proof.
  intros Am. cbn [Re.two_numbers Re.match_here].
  destruct (Re.is_space s2); [|reflexivity].
  destruct m as [|e m]; [reflexivity|].
  simpl in Am. apply andb_true_iff in Am as [Pe Am].
  cbn [append]. rewrite Pe.
  apply greedy_nothing_when_rest_fails; [reflexivity | | exact Am].
  intros st' a s [Pa | ->]; cbn [Re.match_here].
  - now rewrite (digit_or_dot_not_space a Pa).
  - reflexivity.
Qed.

(** The run without quotes and the two numbers, on a viewBox value that
    ends with them. *)
Lemma viewbox_value_match (x n m rest : string) (s1 s2 : ascii) :
  PyStr.all Re.not_quote x = true ->
  Re.is_space s1 = true -> Re.is_space s2 = true ->
  n <> EmptyString -> PyStr.all Re.digit_or_dot n = true ->
  m <> EmptyString -> PyStr.all Re.digit_or_dot m = true ->
  Re.greedy Re.not_quote (Re.match_here Re.two_numbers) Re.no_caps
    (x ++ String s1 (n ++ String s2 (m ++ String Re.dquote rest)))%string
  = Some [n; m].
Proof.
  intros Ax S1 S2 Nn An Nm Am.
  apply greedy_passes_run; [exact Ax | reflexivity |].
  assert (F : forall a s, Re.digit_or_dot a = true ->
                Re.match_here Re.two_numbers Re.no_caps (String a s) = None).
  { intros a s D. apply two_numbers_need_space.
    now apply digit_or_dot_not_space. }
  assert (G2 : Re.greedy Re.not_quote (Re.match_here Re.two_numbers) Re.no_caps
                 (String s2 (m ++ String Re.dquote rest))%string = None).
  { cbn [Re.greedy]. rewrite (space_not_quote s2 S2).
    change (Re.take s2 Re.no_caps) with Re.no_caps.
    rewrite greedy_gives_back;
      [| now apply (all_impl _ _ m digit_or_dot_not_quote) | reflexivity
       | reflexivity].
    rewrite (give_back_nothing Re.digit_or_dot _ _ _ F m Am).
    now apply two_numbers_fail_at_last. }
  cbn [Re.greedy]. rewrite (space_not_quote s1 S1).
  change (Re.take s1 Re.no_caps) with Re.no_caps.
  rewrite greedy_gives_back;
    [| now apply (all_impl _ _ n digit_or_dot_not_quote) | reflexivity
     | exact G2].
  rewrite (give_back_nothing Re.digit_or_dot _ _ _ F n An).
  now apply two_numbers_match.
Qed.

Lemma occurs_app_stable (c : ascii) (z q : string) :
  PyStr.all (fun a => negb (Ascii.eqb a c)) q = true ->
  forall x, PyStr.occurs q x = false ->
    PyStr.occurs q (x ++ String c z)%string = PyStr.occurs q (String c z).
Proof.
  intros Q. induction x as [|a x IH]; intros O; [reflexivity|].
  cbn [PyStr.occurs] in O.
  destruct (PyStr.startswith (String a x) q) eqn:S; [discriminate|].
  change ((String a x ++ String c z)%string)
    with (String a (x ++ String c z)%string).
  cbn [PyStr.occurs].
  change (String a (x ++ String c z)%string)
    with ((String a x ++ String c z)%string).
  rewrite (startswith_stable c z q (String a x) Q S). now apply IH.
Qed.

(** Greedy repetition over the tag finds the attribute [name] where the
    rest of the pattern matches it, when the name does not come again
    before the end of the tag. *)
Lemma greedy_finds_named (c0 : ascii) (name' value post body : string)
  (rest : Re.pattern) (g : list string) :
  PyStr.all Re.not_gt (String c0 name') = true ->
  PyStr.all Re.not_gt value = true ->
  PyStr.all Re.not_gt post = true ->
  PyStr.occurs (String c0 name' ++ "=")%string
    (name' ++ String "=" (String Re.dquote (value ++ String Re.dquote post)))%string
  = false ->
  Re.match_here (Re.lit (String c0 name' ++ "=")%string ++ rest) Re.no_caps
    (Re.attribute (String c0 name') value (post ++ String ">" body)%string)
  = Some g ->
  Re.greedy Re.not_gt
    (Re.match_here (Re.lit (String c0 name' ++ "=")%string ++ rest))
    Re.no_caps
    (Re.attribute (String c0 name') value (post ++ String ">" body)%string)
  = Some g.
Proof.
  intros Aname Av Ap Occ K.
  assert (Pc : Re.not_gt c0 = true /\ PyStr.all Re.not_gt name' = true).
  { simpl in Aname. now apply andb_true_iff in Aname. }
  destruct Pc as [Pc An'].
  unfold Re.attribute in *.
  change ((String c0 name' ++ String "=" (String Re.dquote
             (value ++ String Re.dquote (post ++ String ">" body))))%string)
    with (String c0 (name' ++ String "=" (String Re.dquote
             (value ++ String Re.dquote (post ++ String ">" body))))%string)
    in *.
  cbn [Re.greedy]. rewrite Pc.
  replace (name' ++ String "=" (String Re.dquote
             (value ++ String Re.dquote (post ++ String ">" body))))%string
    with ((name' ++ String "=" (String Re.dquote (value ++ String Re.dquote post)))
            ++ String ">" body)%string at 1.
  2:{ rewrite append_assoc. cbn. rewrite append_assoc. reflexivity. }
  rewrite greedy_nothing_over_run.
  - exact K.
  - rewrite all_app, An'. cbn. rewrite all_app, Av. cbn. exact Ap.
  - reflexivity.
  - change (fun a : ascii => negb (Ascii.eqb a ">")) with Re.not_gt.
    change ((String c0 name' ++ "=")%string) with (String c0 (name' ++ "=")%string).
    cbn [PyStr.all]. rewrite Pc, all_app, An'. reflexivity.
  - exact Occ.
  - reflexivity.
  - change ((String c0 name' ++ "=")%string) with (String c0 (name' ++ "=")%string).
    cbn [PyStr.startswith].
    destruct (Ascii.eqb ">" c0) eqn:E; [|reflexivity].
    apply Ascii.eqb_eq in E. subst c0. discriminate Pc.
Qed.

Lemma occurs_skips_char (p : ascii -> bool) (c0 a : ascii) (q' rest : string) :
  p c0 = false -> p a = true ->
  PyStr.occurs (String c0 q') (String a rest) = PyStr.occurs (String c0 q') rest.
Proof.
  intros P Pa.
  apply (occurs_skips_run p c0 q' (String a EmptyString) rest P).
  cbn. now rewrite Pa.
Qed.

Lemma not_space_differs (s1 : ascii) (q : string) :
  Re.is_space s1 = true ->
  PyStr.all (fun a => negb (Re.is_space a)) q = true ->
  PyStr.all (fun a => negb (Ascii.eqb a s1)) q = true.
Proof.
  intros S. apply all_impl. intros c Nc.
  destruct (Ascii.eqb c s1) eqn:E; [|reflexivity].
  apply Ascii.eqb_eq in E. subst c. rewrite S in Nc. discriminate.
Qed.

(** The viewBox pattern on a tag whose viewBox ends with two numbers. *)
Lemma viewbox_found (pre attrs x n m post body : string) (s1 s2 : ascii) :
  PyStr.occurs "<svg" pre = false ->
  PyStr.all Re.not_gt attrs = true ->
  PyStr.all Re.not_gt post = true ->
  PyStr.occurs "viewBox=" post = false ->
  PyStr.all Re.not_gt x = true ->
  PyStr.all Re.not_quote x = true ->
  PyStr.occurs "viewBox=" x = false ->
  Re.is_space s1 = true -> Re.is_space s2 = true ->
  n <> EmptyString -> PyStr.all Re.digit_or_dot n = true ->
  m <> EmptyString -> PyStr.all Re.digit_or_dot m = true ->
  Re.search Re.viewbox_re
    (pre ++ "<svg" ++ attrs
       ++ Re.attribute "viewBox" (x ++ String s1 (n ++ String s2 m))
            (post ++ ">" ++ body))%string
  = Some [n; m].
Proof.
  intros O A P Nv Gx Qx Ox S1 S2 Nn An Nm Am.
  apply (search_root_tag (skipn 5 Re.viewbox_re) pre attrs _ [n; m] O A).
  apply (greedy_finds_named "v" "iewBox" (x ++ String s1 (n ++ String s2 m))
           post body (skipn 13 Re.viewbox_re) [n; m]).
  - reflexivity.
  - rewrite all_app, Gx. cbn [PyStr.all andb].
    rewrite (space_not_gt s1 S1), all_app, (digit_or_dot_all_not_gt n An).
    cbn [PyStr.all andb].
    now rewrite (space_not_gt s2 S2), (digit_or_dot_all_not_gt m Am).
  - exact P.
  - cbn [append PyStr.occurs PyStr.startswith Ascii.eqb Bool.eqb].
    rewrite !append_assoc. cbn [append]. rewrite !append_assoc. cbn [append].
    rewrite (occurs_app_stable s1 _ "viewBox=");
      [| now apply not_space_differs | exact Ox].
    rewrite (occurs_skips_char Re.is_space "v" s1) by (reflexivity || assumption).
    rewrite (occurs_skips_run Re.digit_or_dot "v") by (reflexivity || assumption).
    rewrite (occurs_skips_char Re.is_space "v" s2) by (reflexivity || assumption).
    rewrite (occurs_skips_run Re.digit_or_dot "v") by (reflexivity || assumption).
    cbn. exact Nv.
  - unfold Re.attribute.
    cbn [append Re.lit app skipn Re.viewbox_re Re.match_here Ascii.eqb Bool.eqb
         Re.take Re.opened Re.no_caps Re.number_group].
    rewrite !append_assoc. cbn [append]. rewrite !append_assoc. cbn [append].
    now apply viewbox_value_match.
Qed.

(** X21.  A file resolves to what [float(N), float(M)] gives (the two
    floats, or the [ValueError] of [float]), when the request gives no
    size, if its text is made of: any text in which [<svg] does not occur;
    [<svg]; any text without [>]; a viewBox attribute whose value is any
    text [x] without [>], without a quote and without [viewBox=], then
    one white space character, N, one white space character, and M (N and
    M non-empty runs of digits and dots); any text without [>] in which
    [viewBox=] does not occur; [>]; and any text; and if in the whole of
    it the width pattern or the height pattern finds nothing.  The text
    [x], where the minimum coordinates stand, is not read as numbers. *)
Theorem viewbox_numerals_resolve (W : world) (path : UStr.t)
  (pre attrs x n m post body : string) (s1 s2 : ascii) :
  let content :=
    (pre ++ "<svg" ++ attrs
       ++ Re.attribute "viewBox" (x ++ String s1 (n ++ String s2 m))
            (post ++ ">" ++ body))%string in
  PyStr.occurs "<svg" pre = false ->
  PyStr.all Re.not_gt attrs = true ->
  PyStr.all Re.not_gt post = true ->
  PyStr.occurs "viewBox=" post = false ->
  PyStr.all Re.not_gt x = true ->
  PyStr.all Re.not_quote x = true ->
  PyStr.occurs "viewBox=" x = false ->
  Re.is_space s1 = true -> Re.is_space s2 = true ->
  n <> EmptyString -> PyStr.all Re.digit_or_dot n = true ->
  m <> EmptyString -> PyStr.all Re.digit_or_dot m = true ->
  Re.search Re.width_re content = None \/ Re.search Re.height_re content = None ->
  open_read W (AsStr path) = Text content ->
  _get_svg_dimensions W (FromStr path) None None
  = ([EvOpen (AsStr path)], snd (floats n m)).
Proof.
  intros content O A P Nv Gx Qx Ox S1 S2 Nn An Nm Am N R.
  unfold _get_svg_dimensions, read_source. rewrite R.
  unfold bind, call, parse_dimensions.
  assert (V : Re.search Re.viewbox_re content = Some [n; m])
    by (now apply viewbox_found).
  rewrite V. cbn [Re.group Nat.sub nth].
  pose proof (floats_log n m) as L.
  destruct (floats n m) as [l r]. cbn in L. subst l.
  destruct N as [N | N]; rewrite N.
  - reflexivity.
  - destruct (Re.search Re.width_re content); reflexivity.
Qed.

Lemma viewbox_numerals_resolve_witness :
  _get_svg_dimensions
    (Sample.with_file "icon.svg"
       (Re.doc "<?xml version='1.0'?><svg id='a' viewBox='-5 -5 12.5 7' fill='red'><g/></svg>")
       (Sample.sample_world 1 0))
    (FromStr "icon.svg") None None
  = ([EvOpen (AsStr "icon.svg")], Ok (PyFloat (25 # 2), PyFloat 7)).
Proof.
  apply (viewbox_numerals_resolve _ "icon.svg"
           (Re.doc "<?xml version='1.0'?>") (Re.doc " id='a' ") "-5 -5"
           "12.5" "7" (Re.doc " fill='red'") "<g/></svg>" " " " ");
    try reflexivity; try discriminate.
  left. vm_compute. reflexivity.
Defined.

(** ** The stride query and the embedded document *)

(** X22.  [stride] returns exactly when the loader returns a handle,
    [int(width)] and [int(height)] do not raise and the render status is 1;
    the value is the stride the canvas reports for the surface of the
    session, or [None] when that is 0 (the result type declared for the
    native function is a pointer), and the log is the render's followed
    by that one query.  It raises exactly when the render does, with the
    same exception and the same log. *)
Theorem stride_follows_render (W : world) (self : SvgImageSurface) (l : log) :
  (forall v,
     _stride W self = (l, Ok v) <->
     exists lh hd size,
       load_step W self = (lh, Ok hd) /\ hd <> 0
       /\ c_size self = Ok size
       /\ session_status W self size hd = 1
       /\ v = (if cairo_image_surface_get_stride W (session_surface W self size)
                   =? 0
               then None
               else Some (cairo_image_surface_get_stride W
                            (session_surface W self size)))
       /\ l = lh ++ session_calls W self size hd
                ++ [Ev_cairo_image_surface_get_stride
                      (session_surface W self size)
                      (cairo_image_surface_get_stride W
                         (session_surface W self size))])
  /\ (forall e, _stride W self = (l, Raise e) <-> _render W self = (l, Raise e)).
Proof.
  split.
  - intros v. rewrite stride_exact, render_exact. split.
    + destruct (load_step W self) as [lh [hd|e]]; [|discriminate].
      destruct (non_null hd) eqn:N; [|discriminate].
      destruct (c_size self) as [size|e]; [|discriminate].
      destruct (session_status W self size hd =? 1) eqn:S; [|discriminate].
      intros X. injection X as <- <-.
      apply Z.eqb_eq in S. apply non_null_true in N.
      exists lh, hd, size. rewrite <- app_assoc. repeat split; auto.
    + intros (lh & hd & size & L & N & C & S & -> & ->).
      rewrite L. apply non_null_true in N. rewrite N, C, S.
      change (1 =? 1) with true. cbn iota. rewrite <- app_assoc. reflexivity.
  - intros e. rewrite stride_exact.
    destruct (_render W self) as [l0 [[[h c] s]|e0]]; split; intros X;
      try discriminate X; inversion X; reflexivity.
Qed.

(** A canvas that reports a stride of 0: the query returns [None]. *)
Example stride_of_zero_is_none :
  snd (_stride
         (mkWorld (fun _ => None) (fun _ => RaisesIOError EmptyString) None None
            (fun _ _ => 101) (fun _ => 101) (fun _ _ => 1) 0
            (fun _ _ _ => 202) (fun _ => 303) (fun _ => 0)
            (fun _ _ => 0) (fun _ => ([], 0)))
         Sample.icon)
  = Ok None.
Proof. reflexivity. Qed.

Lemma c_int_small (z : Z) : - 2 ^ 31 <= z < 2 ^ 31 -> c_int z = z.
Proof.
  intros H. unfold c_int. rewrite Z.mod_small; lia.
Qed.

(** X23.  An embedded document keeps its bytes: [XmlGraphic(xml)], when it
    returns, has [xml] as its value and gives it back from [render()], and
    a render of a request on it hands the loader exactly these bytes with
    their length as a C integer, which is their length when that is below
    2 ^ 31. *)
Theorem embedded_bytes_reach_loader (W : world) (xml0 : string)
  (g : XmlGraphic.t) (l : log) :
  XmlGraphic.new W xml0 = (l, Ok g) ->
  l = [] /\ XmlGraphic.bytes g = xml0 /\ XmlGraphic.render g = xml0
  /\ (Z.of_nat (String.length xml0) < 2 ^ 31 ->
      c_int (Z.of_nat (String.length xml0)) = Z.of_nat (String.length xml0))
  /\ forall bg to w h,
       exists hd l' r,
         hd = rsvg_handle_new_from_data W xml0
                (c_int (Z.of_nat (String.length xml0)))
         /\ _render W (mkSurface bg (FromXml g) to w h)
            = (Ev_rsvg_handle_new_from_data xml0
                 (c_int (Z.of_nat (String.length xml0))) hd :: l', r).
Proof.
  unfold XmlGraphic.new.
  destruct (bs4_find_svg W xml0) as [root|] eqn:F; [|discriminate].
  intros X. inversion X; subst; clear X.
  set (g := XmlGraphic.mk xml0 xml0 (root "width") (root "height")).
  cbn [XmlGraphic.bytes XmlGraphic.render XmlGraphic.xml]. repeat split.
  - intros H. apply c_int_small. lia.
  - intros bg to w h. rewrite render_exact. unfold load_step.
    cbn [from_file]. subst g. cbn [XmlGraphic.bytes]. rewrite F.
    set (g := XmlGraphic.mk xml0 xml0 (root "width") (root "height")).
    cbv beta iota zeta delta [call].
    set (hd := rsvg_handle_new_from_data W xml0
                 (c_int (Z.of_nat (String.length xml0)))).
    exists hd.
    set (self := mkSurface bg (FromXml g) to w h).
    destruct (non_null hd);
      [destruct (c_size self) as [size|e];
         [destruct (session_status W self size hd =? 1)|]|];
      eexists; eexists; (split; [reflexivity|]); cbn [app]; reflexivity.
Qed.

Lemma embedded_bytes_reach_loader_witness :
  XmlGraphic.bytes Sample.embedded = "<svg/>"
  /\ XmlGraphic.render Sample.embedded = "<svg/>".
Proof.
  destruct (embedded_bytes_reach_loader (Sample.sample_world 1 0) "<svg/>"
              Sample.embedded [] eq_refl) as (_ & B & R & _).
  split; assumption.
Defined.

(** ** The destination of a file request *)

(** X26.  With a file path as source, a destination that is not empty
    and does not end in [.png] makes construction raise
    [InvalidFileExtensionError] with an empty log: no file is opened, no
    library loaded and no native call made. *)
Theorem bad_destination_rejected (W : world) (path t : UStr.t) (bg : bool)
  (w h : option num) :
  PyStr.truthy t = true ->
  PyStr.endswith t ".png" = false ->
  exists msg,
    __init__ W (FromStr path) (Some t) bg w h
    = ([], Raise (InvalidFileExtensionError msg)).
Proof.
  intros T E. unfold __init__.
  destruct (PyStr.endswith path ".svg"); simpl.
  - rewrite T, E. simpl. eexists. reflexivity.
  - eexists. reflexivity.
Qed.

Lemma bad_destination_rejected_witness :
  exists msg,
    __init__ (Sample.sample_world 1 0) (FromStr "icon.svg")
      (Some ("icon.jpg" : UStr.t)) true None None
    = ([], Raise (InvalidFileExtensionError msg)).
Proof.
  apply (bad_destination_rejected (Sample.sample_world 1 0) "icon.svg"
           "icon.jpg" true None None); reflexivity.
Defined.

(** An empty destination is not looked at: construction goes on. *)
Example empty_destination_accepted :
  __init__ (Sample.sample_world 1 0) (FromStr "icon.svg")
    (Some (EmptyString : UStr.t)) true (Some (PyInt 1)) (Some (PyInt 1))
  = ([EvLoadLibraries; EvDefineFunctionTypes],
     Ok (mkSurface true (FromStr "icon.svg") (Some (EmptyString : UStr.t))
           (PyInt 1) (PyInt 1))).
Proof. reflexivity. Qed.

(** ** [surface.py] *)

(** X27.  [surface.py] cannot be imported: the name it takes from
    [unix.py], [SvgSurface], is not among the names that module binds
    (the class there is [SvgImageSurface]), so the import raises
    [ImportError] and the class [SVGSurface] is never made; [save],
    [tobytes] and [stride] are not reached through it, and no call leaves
    the interpreter. *)
Theorem facade_import_fails (W : world) (self : SvgImageSurface) :
  SVGSurface.SvgSurface
  = Raise (ImportError "cannot import name 'SvgSurface'")
  /\ In "SvgImageSurface" SVGSurface.unix_names
  /\ ~ In "SvgSurface" SVGSurface.unix_names
  /\ SVGSurface.save W self
     = ([], Raise (ImportError "cannot import name 'SvgSurface'"))
  /\ SVGSurface.tobytes W self
     = ([], Raise (ImportError "cannot import name 'SvgSurface'"))
  /\ SVGSurface.stride W self
     = ([], Raise (ImportError "cannot import name 'SvgSurface'")).
Proof.
  repeat split; try reflexivity.
  - cbn. tauto.
  - cbn. intros H.
    repeat (destruct H as [H|H]; [discriminate H|]). exact H.
Qed.
